(** * Half-duplex three-wire driver for the RC-S926 (FeliCa Plug)

    A shallow embedding of [firmware/peripheral/three_wire.c] and the
    properties of its bit-banged transfers, power control and wake-up
    sources.

    The AVR I/O registers are 8-bit cells held as [Z] with the truncation of
    every store written out.  The driver's effects are threaded through a
    small state monad; every register store, every read of the input
    register and every busy-wait is appended to a chronological log, from
    which wave forms and elapsed time are computed. *)

From Stdlib Require Import ZArith List Bool Lia.
Import ListNotations.
Local Open Scope Z_scope.

(** ** Machine integers *)

(** Conversion to [uint8_t]. *)
Definition u8 (x : Z) : Z := x mod 256.

(** avr-libc's [_BV(bit)], that is [(1 << (bit))]. *)
Definition _BV (bit : Z) : Z := Z.shiftl 1 bit.

(** ** Hardware state *)

(** The registers the driver stores to.  [TWSPI_DDR] and [TWSPI_PORT] are the
    direction and output latch of the port the bus is wired to; [PCICR] and
    [PCMSK0] control the pin-change interrupt. *)
Inductive reg : Type :=
| rTWSPI_DDR
| rTWSPI_PORT
| rPCICR
| rPCMSK0.

Inductive event : Type :=
| Write (r : reg) (v : Z)   (* a store of [v] to register [r] *)
| Read (v : Z)              (* a read of [TWSPI_PIN] that returned [v] *)
| Delay (us : Z).           (* [_delay_us(us)] *)

(** [TWSPI_PIN] is the input register: what it returns is decided by the
    outside world, so it is a stream indexed by the number of reads made so
    far.  [ram] is the data memory the buffer pointers point into. *)
Record state : Type := mkState {
  TWSPI_DDR : Z;
  TWSPI_PORT : Z;
  PCICR : Z;
  PCMSK0 : Z;
  TWSPI_PIN : nat -> Z;
  reads : nat;
  ram : Z -> Z;
  log : list event
}.

(** ** The state monad *)

Definition M (A : Type) : Type := state -> A * state.

Definition ret {A : Type} (a : A) : M A := fun s => (a, s).

Definition bind {A B : Type} (m : M A) (k : A -> M B) : M B :=
  fun s => let '(a, s') := m s in k a s'.

Notation "x <- m ;; k" := (bind m (fun x => k))
  (at level 61, m at next level, right associativity).
Notation "m ;; k" := (bind m (fun _ => k))
  (at level 61, right associativity).

Definition exec {A : Type} (m : M A) (s : state) : state := snd (m s).
Definition eval {A : Type} (m : M A) (s : state) : A := fst (m s).

Definition emit (e : event) : M unit := fun s =>
  (tt, mkState (TWSPI_DDR s) (TWSPI_PORT s) (PCICR s) (PCMSK0 s)
               (TWSPI_PIN s) (reads s) (ram s) (log s ++ [e])).

Definition get_reg (r : reg) : M Z := fun s =>
  (match r with
   | rTWSPI_DDR => TWSPI_DDR s
   | rTWSPI_PORT => TWSPI_PORT s
   | rPCICR => PCICR s
   | rPCMSK0 => PCMSK0 s
   end, s).

(** A store truncates to the register's eight bits. *)
Definition set_reg (r : reg) (v : Z) : M unit := fun s =>
  let v := u8 v in
  let l := log s ++ [Write r v] in
  (tt, match r with
       | rTWSPI_DDR =>
           mkState v (TWSPI_PORT s) (PCICR s) (PCMSK0 s)
                   (TWSPI_PIN s) (reads s) (ram s) l
       | rTWSPI_PORT =>
           mkState (TWSPI_DDR s) v (PCICR s) (PCMSK0 s)
                   (TWSPI_PIN s) (reads s) (ram s) l
       | rPCICR =>
           mkState (TWSPI_DDR s) (TWSPI_PORT s) v (PCMSK0 s)
                   (TWSPI_PIN s) (reads s) (ram s) l
       | rPCMSK0 =>
           mkState (TWSPI_DDR s) (TWSPI_PORT s) (PCICR s) v
                   (TWSPI_PIN s) (reads s) (ram s) l
       end).

(** Reading [TWSPI_PIN] consumes one sample of the input stream. *)
Definition read_TWSPI_PIN : M Z := fun s =>
  let v := TWSPI_PIN s (reads s) in
  (v, mkState (TWSPI_DDR s) (TWSPI_PORT s) (PCICR s) (PCMSK0 s)
              (TWSPI_PIN s) (S (reads s)) (ram s) (log s ++ [Read v])).

Definition _delay_us (us : Z) : M unit := emit (Delay us).

(** [*p] and [*p = v] on data memory. *)
Definition load (p : Z) : M Z := fun s => (ram s p, s).

Definition store (p v : Z) : M unit := fun s =>
  (tt, mkState (TWSPI_DDR s) (TWSPI_PORT s) (PCICR s) (PCMSK0 s)
               (TWSPI_PIN s) (reads s)
               (fun a => if a =? p then v else ram s a) (log s)).

(** C's compound assignments [r |= m] and [r &= m]. *)
Definition or_assign (r : reg) (m : Z) : M unit :=
  v <- get_reg r ;; set_reg r (Z.lor v m).

Definition and_assign (r : reg) (m : Z) : M unit :=
  v <- get_reg r ;; set_reg r (Z.land v m).

Notation "r '|=' m" := (or_assign r m) (at level 60, no associativity).
Notation "r '&=' m" := (and_assign r m) (at level 60, no associativity).

(** C's conversion of an integer to a truth value. *)
Definition truthy (x : Z) : bool := negb (x =? 0).

(** ** Observations on a run *)

(** What a step from [s] to [s'] appended to the log. *)
Definition since (s s' : state) : list event :=
  skipn (length (log s)) (log s').

(** The value of [TWSPI_PORT] after the events [l], when it was [port]
    before them. *)
Fixpoint port_after (port : Z) (l : list event) : Z :=
  match l with
  | [] => port
  | Write rTWSPI_PORT v :: l' => port_after v l'
  | _ :: l' => port_after port l'
  end.

(** The wave form of the events [l]: for every busy-wait, the value
    [TWSPI_PORT] held during it and for how many microseconds. *)
Fixpoint waveform (port : Z) (l : list event) : list (Z * Z) :=
  match l with
  | [] => []
  | Write rTWSPI_PORT v :: l' => waveform v l'
  | Delay us :: l' => (port, us) :: waveform port l'
  | _ :: l' => waveform port l'
  end.

(** Microseconds spent busy-waiting in [l]. *)
Fixpoint duration (l : list event) : Z :=
  match l with
  | [] => 0
  | Delay us :: l' => us + duration l'
  | _ :: l' => duration l'
  end.

(** The registers an event list stores to. *)
Fixpoint written (l : list event) : list reg :=
  match l with
  | [] => []
  | Write r _ :: l' => r :: written l'
  | _ :: l' => written l'
  end.

(** The eight bits of a byte, most significant first. *)
Definition bits_msb (b : Z) : list bool :=
  map (fun i => Z.testbit b (7 - Z.of_nat i)) (seq 0 8).

(** The addresses [buf], [buf + 1], ... of an [n]-byte buffer. *)
Definition addrs (buf : Z) (n : nat) : list Z :=
  map (fun k => buf + Z.of_nat k) (seq 0 n).

(** The values an event list stores to [TWSPI_PORT], in order. *)
Fixpoint port_stores (l : list event) : list Z :=
  match l with
  | [] => []
  | Write rTWSPI_PORT v :: l' => v :: port_stores l'
  | _ :: l' => port_stores l'
  end.

(** The value of [TWSPI_PORT] at each read of the input register. *)
Fixpoint port_at_reads (port : Z) (l : list event) : list Z :=
  match l with
  | [] => []
  | Write rTWSPI_PORT v :: l' => port_at_reads v l'
  | Read _ :: l' => port :: port_at_reads port l'
  | _ :: l' => port_at_reads port l'
  end.

(** For each store to [TWSPI_PORT], the value before and after it. *)
Fixpoint port_steps (port : Z) (l : list event) : list (Z * Z) :=
  match l with
  | [] => []
  | Write rTWSPI_PORT v :: l' => (port, v) :: port_steps v l'
  | _ :: l' => port_steps port l'
  end.

(** How often a [do ... while (--len)] loop on a [uint8_t] counter runs its
    body: [len] times, and 256 times for [len = 0]. *)
Definition iterations (len : Z) : nat :=
  Z.to_nat (if len =? 0 then 256 else len).

(** The Data levels of the half-cycles of a wave form in which Clock is
    high. *)
Definition data_at_clk_high (w : list (bool * bool * Z)) : list bool :=
  flat_map (fun h : bool * bool * Z =>
              if fst (fst h) then [snd (fst h)] else []) w.

(** An idle bus on the example wiring: Select (bit 0), the power switch
    (bit 1) and Clock (bit 3) are outputs and high, Data (bit 2) is an
    input. *)
Definition idle_state (pin : nat -> Z) (m : Z -> Z) : state :=
  mkState 11 11 0 0 pin 0 m [].

(** ** An example wiring *)

(** A state with all registers cleared, an empty log and zeroed memory,
    whose input register returns [pin n] at the [n]-th read. *)
Definition reset_state (pin : nat -> Z) : state :=
  mkState 0 0 0 0 pin 0 (fun _ => 0) [].

(** An input stream on which Data (bit 2) carries the bytes 0x3C, 0xFF,
    most significant bit first, one level per read. *)
Definition stream_3C_FF (n : nat) : Z :=
  if nth n (bits_msb 0x3C ++ bits_msb 0xFF) false then _BV 2 else 0.

(** Memory holding the bytes [bs] from address [buf] on. *)
Definition ram_with (buf : Z) (bs : list Z) (a : Z) : Z :=
  if (buf <=? a) && (a <? buf + Z.of_nat (length bs))
  then nth (Z.to_nat (a - buf)) bs 0 else 0.

Definition state_with_ram (m : Z -> Z) : state :=
  mkState 0 0 0 0 (fun _ => 0) 0 m [].

(** ** The driver *)

Section ThreeWire.

(** Bit numbers of the bus lines within the port, as [three_wire.h] assigns
    them: Select, Clock, Data, the power switch, data-ready and field-detect.
    The header is not part of the sources at hand, so the numbers are
    parameters; the theorems say which of them they need to be distinct bits
    of an 8-bit register. *)
Variables TWSPI_SEL TWSPI_CLK TWSPI_DATA TWSPI_SW TWSPI_IRQ TWSPI_RFDET : Z.

(** Bit numbers of the pin-change interrupt enable in [PCICR] and of the two
    mask bits in [PCMSK0], as the device header assigns them. *)
Variables PCIE0 PCINT4 PCINT5 : Z.

(** avr-libc's [pgm_read_byte]: the byte of program memory at an address.
    Program memory is read-only while the driver runs, so its contents are a
    parameter rather than part of the state. *)
Variable pgm_read_byte : Z -> Z.

Definition twspi_init : M unit :=
  rTWSPI_DDR |= _BV TWSPI_SEL ;;
  rTWSPI_DDR |= _BV TWSPI_CLK ;;
  rTWSPI_DDR |= _BV TWSPI_SW.

Definition twspi_disable : M unit :=
  rTWSPI_DDR &= Z.land (Z.land (Z.lnot (_BV TWSPI_SEL))
                               (Z.lnot (_BV TWSPI_CLK)))
                       (Z.lnot (_BV TWSPI_SW)).

Definition rcs926_suspend : M unit :=
  rTWSPI_PORT &= Z.lnot (_BV TWSPI_SW).

Definition rcs926_resume : M unit :=
  rTWSPI_PORT |= _BV TWSPI_SW ;;
  _delay_us 50.

Definition rcs926_data_ready : M bool :=
  pin <- read_TWSPI_PIN ;;
  ret (truthy (Z.land pin (_BV TWSPI_IRQ))).

Definition rcs926_rf_present : M bool :=
  pin <- read_TWSPI_PIN ;;
  ret (Z.land pin (_BV TWSPI_RFDET) =? 0).

Definition rcs926_wake_up_on_rf (enable : bool) : M unit :=
  if enable then
    rPCICR |= _BV PCIE0 ;;
    rPCMSK0 |= _BV PCINT5
  else
    rPCMSK0 &= Z.lnot (_BV PCINT5).

Definition rcs926_wake_up_on_irq (enable : bool) : M unit :=
  if enable then
    rPCICR |= _BV PCIE0 ;;
    rPCMSK0 |= _BV PCINT4
  else
    rPCMSK0 &= Z.lnot (_BV PCINT4).

Definition twspi_begin_send : M unit :=
  rTWSPI_PORT &= Z.lnot (_BV TWSPI_SEL) ;;
  _delay_us 1 ;;
  rTWSPI_DDR |= _BV TWSPI_DATA.

Definition twspi_end_send : M unit :=
  _delay_us 1 ;;
  rTWSPI_DDR &= Z.lnot (_BV TWSPI_DATA) ;;
  _delay_us 1 ;;
  rTWSPI_PORT |= _BV TWSPI_SEL.

(** The body of the [do ... while (--i)] loop of [twspi_send], run for the
    [i] iterations the counter has left; [c] is shifted left within its
    eight bits after its top bit has been put on the Data line. *)
Fixpoint twspi_send_loop (i : nat) (c : Z) : M unit :=
  match i with
  | O => ret tt
  | S i' =>
      rTWSPI_PORT &= Z.lnot (_BV TWSPI_CLK) ;;
      (if truthy (Z.land c 0x80)
       then rTWSPI_PORT |= _BV TWSPI_DATA
       else rTWSPI_PORT &= Z.lnot (_BV TWSPI_DATA)) ;;
      let c' := u8 (Z.shiftl c 1) in
      _delay_us 1 ;;
      rTWSPI_PORT |= _BV TWSPI_CLK ;;
      _delay_us 1 ;;
      twspi_send_loop i' c'
  end.

Definition twspi_send (c : Z) : M unit := twspi_send_loop 8 c.

(** The [for (i = 0; i < 8; i++)] loop of [twspi_get], with [n] iterations
    left and [data] the accumulator. *)
Fixpoint twspi_get_loop (n : nat) (data : Z) : M Z :=
  match n with
  | O => ret data
  | S n' =>
      rTWSPI_PORT &= Z.lnot (_BV TWSPI_CLK) ;;
      _delay_us 1 ;;
      let data1 := u8 (Z.shiftl data 1) in
      pin <- read_TWSPI_PIN ;;
      let data2 := if truthy (Z.land pin (_BV TWSPI_DATA))
                   then u8 (Z.lor data1 1) else data1 in
      rTWSPI_PORT |= _BV TWSPI_CLK ;;
      _delay_us 1 ;;
      twspi_get_loop n' data2
  end.

Definition twspi_get : M Z := twspi_get_loop 8 0.

(** The bodies of the two buffer loops, at the address [a] the pointer holds:
    [twspi_send( *buf )] and [*buf = twspi_get()]. *)
Definition send_at (s : state) (a : Z) : state :=
  exec (c <- load a ;; twspi_send c) s.

Definition get_to (s : state) (a : Z) : state :=
  exec (c <- twspi_get ;; store a c) s.

(** The buffer loops are [do ... while (--len)] on a [uint8_t] counter: the
    body runs and the pointer moves on, the counter is decremented modulo
    256, and the loop goes on while the counter is not zero.  [fuel] bounds
    the number of iterations; [None] is running out of it. *)
Fixpoint twspi_send_buf_loop (fuel : nat) (buf len : Z) (s : state)
  : option state :=
  match fuel with
  | O => None
  | S fuel' =>
      let s1 := send_at s buf in
      let len' := u8 (len - 1) in
      if truthy len' then twspi_send_buf_loop fuel' (buf + 1) len' s1
      else Some s1
  end.

Fixpoint twspi_get_buf_loop (fuel : nat) (buf len : Z) (s : state)
  : option state :=
  match fuel with
  | O => None
  | S fuel' =>
      let s1 := get_to s buf in
      let len' := u8 (len - 1) in
      if truthy len' then twspi_get_buf_loop fuel' (buf + 1) len' s1
      else Some s1
  end.

(** An 8-bit counter takes at most 256 values before it returns to zero. *)
Definition twspi_send_buf (buf len : Z) (s : state) : option state :=
  twspi_send_buf_loop 256 buf len s.

Definition twspi_get_buf (buf len : Z) (s : state) : option state :=
  twspi_get_buf_loop 256 buf len s.

(** [twspi_send_buf_p] is [twspi_send_buf] on a buffer in program memory:
    its loop body is [twspi_send(pgm_read_byte(buf))]. *)
Definition send_at_p (s : state) (a : Z) : state :=
  exec (twspi_send (pgm_read_byte a)) s.

Fixpoint twspi_send_buf_p_loop (fuel : nat) (buf len : Z) (s : state)
  : option state :=
  match fuel with
  | O => None
  | S fuel' =>
      let s1 := send_at_p s buf in
      let len' := u8 (len - 1) in
      if truthy len' then twspi_send_buf_p_loop fuel' (buf + 1) len' s1
      else Some s1
  end.

Definition twspi_send_buf_p (buf len : Z) (s : state) : option state :=
  twspi_send_buf_p_loop 256 buf len s.

(** ** Observations on the bus lines *)

(** Levels of the Clock and Data lines in a value of [TWSPI_PORT], and of
    the Clock line alone, each with the time they are held. *)
Definition clk_data (h : Z * Z) : bool * bool * Z :=
  (Z.testbit (fst h) TWSPI_CLK, Z.testbit (fst h) TWSPI_DATA, snd h).

Definition clk (h : Z * Z) : bool * Z :=
  (Z.testbit (fst h) TWSPI_CLK, snd h).

(** A Clock cycle that carries the Data level [b]: low for 1 us, then high
    for 1 us. *)
Definition bit_cycle (b : bool) : list (bool * bool * Z) :=
  [(false, b, 1); (true, b, 1)].

Definition clk_cycle : list (bool * Z) := [(false, 1); (true, 1)].

(** The Data levels of the next [n] reads of [TWSPI_PIN], starting [off]
    reads from now. *)
Definition data_levels (s : state) (off n : nat) : list bool :=
  map (fun i => Z.testbit (TWSPI_PIN s (reads s + off + i)) TWSPI_DATA)
      (seq 0 n).

(** Sending the byte [c] from the state [s]. *)
Definition send_byte (s : state) (c : Z) : state := exec (twspi_send c) s.

(** The Clock and Data wave form of a byte sent most significant bit
    first. *)
Definition byte_cycles (c : Z) : list (bool * bool * Z) :=
  flat_map bit_cycle (bits_msb c).

(** ** One bit on the bus *)

(** The stores one loop iteration makes to [TWSPI_PORT]. *)
Definition clk_low (port : Z) : Z :=
  u8 (Z.land port (Z.lnot (_BV TWSPI_CLK))).

Definition clk_high (port : Z) : Z :=
  u8 (Z.lor port (_BV TWSPI_CLK)).

Definition data_put (b : bool) (port : Z) : Z :=
  if b then u8 (Z.lor port (_BV TWSPI_DATA))
  else u8 (Z.land port (Z.lnot (_BV TWSPI_DATA))).

(** What one iteration of [twspi_send_loop] logs when it sends the bit [b],
    and the state it leaves. *)
Definition send_bit_events (b : bool) (port : Z) : list event :=
  [Write rTWSPI_PORT (clk_low port);
   Write rTWSPI_PORT (data_put b (clk_low port));
   Delay 1;
   Write rTWSPI_PORT (clk_high (data_put b (clk_low port)));
   Delay 1].

Definition send_bit_state (b : bool) (s : state) : state :=
  mkState (TWSPI_DDR s) (clk_high (data_put b (clk_low (TWSPI_PORT s))))
          (PCICR s) (PCMSK0 s) (TWSPI_PIN s) (reads s) (ram s)
          (log s ++ send_bit_events b (TWSPI_PORT s)).

(** What one iteration of [twspi_get_loop] logs when the input register
    reads [pin], the state it leaves, and the accumulator after the sampled
    level [b] has been shifted in. *)
Definition get_bit_events (pin port : Z) : list event :=
  [Write rTWSPI_PORT (clk_low port);
   Delay 1;
   Read pin;
   Write rTWSPI_PORT (clk_high (clk_low port));
   Delay 1].

Definition get_bit_state (s : state) : state :=
  mkState (TWSPI_DDR s) (clk_high (clk_low (TWSPI_PORT s)))
          (PCICR s) (PCMSK0 s) (TWSPI_PIN s) (S (reads s)) (ram s)
          (log s ++ get_bit_events (TWSPI_PIN s (reads s)) (TWSPI_PORT s)).

Definition shift_in (data : Z) (b : bool) : Z :=
  if b then u8 (Z.lor (u8 (Z.shiftl data 1)) 1) else u8 (Z.shiftl data 1).

(** The log of receiving bits when the input register reads [pins], one
    value per bit: for each value in turn a Clock cycle of its own, Clock
    stored low, 1 us, the read that returns the value, Clock stored high,
    1 us. *)
Fixpoint get_events (pins : list Z) (port : Z) : list event :=
  match pins with
  | [] => []
  | pin :: pins' =>
      get_bit_events pin port ++ get_events pins' (clk_high (clk_low port))
  end.

(** ** Bit-level facts *)

Lemma u8_range (x : Z) : 0 <= u8 x < 256.
Proof. unfold u8. apply Z.mod_pos_bound. lia. Qed.

Lemma u8_small (x : Z) : 0 <= x < 256 -> u8 x = x.
Proof. intros H. unfold u8. now apply Z.mod_small. Qed.

Lemma testbit_u8 (x j : Z) :
  0 <= j -> Z.testbit (u8 x) j = (j <? 8) && Z.testbit x j.
Proof.
  intros Hj. unfold u8. change 256 with (2 ^ 8).
  apply Z.testbit_mod_pow2. lia.
Qed.

Lemma testbit_BV (b j : Z) : 0 <= b -> Z.testbit (_BV b) j = (j =? b).
Proof.
  intros Hb. unfold _BV. rewrite Z.shiftl_1_l, Z.pow2_bits_eqb by assumption.
  apply Z.eqb_sym.
Qed.

Lemma testbit_set (b v j : Z) :
  0 <= b -> 0 <= j ->
  Z.testbit (u8 (Z.lor v (_BV b))) j = (j <? 8) && (Z.testbit v j || (j =? b)).
Proof.
  intros Hb Hj. now rewrite testbit_u8, Z.lor_spec, testbit_BV.
Qed.

Lemma testbit_clear (b v j : Z) :
  0 <= b -> 0 <= j ->
  Z.testbit (u8 (Z.land v (Z.lnot (_BV b)))) j
  = (j <? 8) && (Z.testbit v j && negb (j =? b)).
Proof.
  intros Hb Hj.
  now rewrite testbit_u8, Z.land_spec, Z.lnot_spec, testbit_BV.
Qed.

Lemma land_BV_eqb (v b : Z) :
  0 <= b -> (Z.land v (_BV b) =? 0) = negb (Z.testbit v b).
Proof.
  intros Hb. destruct (Z.testbit v b) eqn:E; cbn.
  - apply Z.eqb_neq. intros H.
    assert (F : Z.testbit (Z.land v (_BV b)) b = true)
      by now rewrite Z.land_spec, testbit_BV, E, Z.eqb_refl.
    rewrite H, Z.bits_0 in F. discriminate.
  - apply Z.eqb_eq, Z.bits_inj'. intros j Hj.
    rewrite Z.land_spec, testbit_BV, Z.bits_0 by assumption.
    destruct (Z.eqb_spec j b) as [->|]; [now rewrite E | apply andb_false_r].
Qed.

Lemma land_BV_eqb_any (v b : Z) :
  (Z.land v (_BV b) =? 0) = negb (Z.testbit v b).
Proof.
  destruct (Z.neg_nonneg_cases b) as [Hb|Hb].
  - rewrite Z.testbit_neg_r by assumption. unfold _BV.
    rewrite Z.shiftl_1_l, Z.pow_neg_r, Z.land_0_r by assumption. reflexivity.
  - now apply land_BV_eqb.
Qed.

Lemma truthy_land_BV (v b : Z) :
  truthy (Z.land v (_BV b)) = Z.testbit v b.
Proof.
  unfold truthy. rewrite land_BV_eqb_any. apply negb_involutive.
Qed.

Lemma testbit_masked (v m b : Z) :
  (0 <= b -> Z.testbit m b = false) -> Z.testbit (u8 (Z.land v m)) b = false.
Proof.
  intros H. destruct (Z.neg_nonneg_cases b) as [Hb|Hb].
  - now apply Z.testbit_neg_r.
  - rewrite testbit_u8, Z.land_spec, H by assumption.
    now rewrite andb_false_r, andb_false_r.
Qed.

Lemma testbit_lnot_BV (b : Z) : 0 <= b -> Z.testbit (Z.lnot (_BV b)) b = false.
Proof.
  intros Hb. now rewrite Z.lnot_spec, testbit_BV, Z.eqb_refl.
Qed.

Lemma testbit_set_same (b v : Z) :
  0 <= b < 8 -> Z.testbit (u8 (Z.lor v (_BV b))) b = true.
Proof.
  intros Hb. rewrite testbit_set, Z.eqb_refl, orb_true_r by lia.
  rewrite andb_true_r. apply Z.ltb_lt. lia.
Qed.

Lemma testbit_clear_same (b v : Z) :
  Z.testbit (u8 (Z.land v (Z.lnot (_BV b)))) b = false.
Proof. apply testbit_masked, testbit_lnot_BV. Qed.

Lemma testbit_set_other (b v j : Z) :
  0 <= b -> 0 <= j < 8 -> j <> b ->
  Z.testbit (u8 (Z.lor v (_BV b))) j = Z.testbit v j.
Proof.
  intros Hb Hj Hne. rewrite testbit_set by lia.
  replace (j <? 8) with true by (symmetry; apply Z.ltb_lt; lia).
  replace (j =? b) with false by (symmetry; now apply Z.eqb_neq).
  now rewrite orb_false_r.
Qed.

Lemma testbit_clear_other (b v j : Z) :
  0 <= b -> 0 <= j < 8 -> j <> b ->
  Z.testbit (u8 (Z.land v (Z.lnot (_BV b)))) j = Z.testbit v j.
Proof.
  intros Hb Hj Hne. rewrite testbit_clear by lia.
  replace (j <? 8) with true by (symmetry; apply Z.ltb_lt; lia).
  replace (j =? b) with false by (symmetry; now apply Z.eqb_neq).
  now rewrite andb_true_r.
Qed.

Lemma testbit_set_keep (b v j : Z) :
  0 <= b -> 0 <= j < 8 -> Z.testbit v j = true ->
  Z.testbit (u8 (Z.lor v (_BV b))) j = true.
Proof.
  intros Hb Hj Hv. rewrite testbit_set, Hv by lia.
  apply andb_true_iff. split; [apply Z.ltb_lt; lia | reflexivity].
Qed.

(** ** Logs *)

Lemma since_app (s s' : state) (tr : list event) :
  log s' = log s ++ tr -> since s s' = tr.
Proof.
  intros H. unfold since. rewrite H, skipn_app, Nat.sub_diag, skipn_all.
  reflexivity.
Qed.

(** ** Pin directions and power *)

(** C9.  From every state, [twspi_disable] leaves the direction bits of
    Select, Clock and the power switch cleared: the three lines are inputs,
    whatever their directions were and whether or not [twspi_init] ran. *)
Theorem twspi_disable_inputs (s : state) :
  let s' := exec twspi_disable s in
  Z.testbit (TWSPI_DDR s') TWSPI_SEL = false /\
  Z.testbit (TWSPI_DDR s') TWSPI_CLK = false /\
  Z.testbit (TWSPI_DDR s') TWSPI_SW = false.
Proof.
  cbn. repeat split; apply testbit_masked; intros Hb;
    rewrite !Z.land_spec, (testbit_lnot_BV _ Hb).
  - reflexivity.
  - now rewrite andb_false_r.
  - now rewrite andb_false_r.
Qed.

(** C8.  [rcs926_rf_present] returns the negation of the level it samples
    on the field-detect line: true when the line is low, false when it is
    high. *)
Theorem rcs926_rf_present_active_low (s : state) :
  let level := Z.testbit (TWSPI_PIN s (reads s)) TWSPI_RFDET in
  eval rcs926_rf_present s = negb level /\
  (eval rcs926_rf_present s = true <-> level = false).
Proof.
  cbn. rewrite land_BV_eqb_any. split; [reflexivity|].
  destruct (Z.testbit _ _); cbn; intuition congruence.
Qed.

(** [twspi_init] makes Select, Clock and the power switch outputs. *)
Lemma twspi_init_outputs (s : state) :
  0 <= TWSPI_SEL < 8 -> 0 <= TWSPI_CLK < 8 -> 0 <= TWSPI_SW < 8 ->
  let s' := exec twspi_init s in
  Z.testbit (TWSPI_DDR s') TWSPI_SEL = true /\
  Z.testbit (TWSPI_DDR s') TWSPI_CLK = true /\
  Z.testbit (TWSPI_DDR s') TWSPI_SW = true.
Proof.
  intros Hsel Hclk Hsw. cbn. repeat split.
  - do 2 (apply testbit_set_keep; [lia|lia|]). now apply testbit_set_same.
  - apply testbit_set_keep; [lia|lia|]. now apply testbit_set_same.
  - now apply testbit_set_same.
Qed.

(** [rcs926_data_ready] returns the level it samples on the data-ready
    line. *)
Lemma rcs926_data_ready_level (s : state) :
  eval rcs926_data_ready s = Z.testbit (TWSPI_PIN s (reads s)) TWSPI_IRQ.
Proof. cbn. apply truthy_land_BV. Qed.

(** C7.  [rcs926_suspend] stores the power switch low and returns without
    waiting.  [rcs926_resume] stores it high and then waits 50 us before it
    returns.  One after the other they store low, then high, and 50 us pass
    between the store of the high level and the return. *)
Theorem rcs926_suspend_resume_power (s : state) :
  0 <= TWSPI_SW < 8 ->
  let s1 := exec rcs926_suspend s in
  let r := exec rcs926_resume s in
  let s2 := exec rcs926_resume s1 in
  (since s s1 = [Write rTWSPI_PORT (TWSPI_PORT s1)] /\
   Z.testbit (TWSPI_PORT s1) TWSPI_SW = false /\
   duration (since s s1) = 0) /\
  (since s r = [Write rTWSPI_PORT (TWSPI_PORT r); Delay 50] /\
   Z.testbit (TWSPI_PORT r) TWSPI_SW = true /\
   50 <= duration (skipn 1 (since s r))) /\
  (since s s2 = [Write rTWSPI_PORT (TWSPI_PORT s1);
                 Write rTWSPI_PORT (TWSPI_PORT s2); Delay 50] /\
   Z.testbit (TWSPI_PORT s2) TWSPI_SW = true /\
   50 <= duration (skipn 2 (since s s2))).
Proof.
  intros Hsw s1 r s2.
  assert (E1 : since s s1 = [Write rTWSPI_PORT (TWSPI_PORT s1)])
    by (apply since_app; reflexivity).
  assert (E2 : since s r = [Write rTWSPI_PORT (TWSPI_PORT r); Delay 50])
    by (apply since_app; cbn; now rewrite <- !app_assoc).
  assert (E3 : since s s2 = [Write rTWSPI_PORT (TWSPI_PORT s1);
                             Write rTWSPI_PORT (TWSPI_PORT s2); Delay 50])
    by (apply since_app; cbn; now rewrite <- !app_assoc).
  rewrite E1, E2, E3. repeat split.
  - cbn. apply testbit_clear_same.
  - cbn. now apply testbit_set_same.
  - cbn. lia.
  - cbn. now apply testbit_set_same.
  - cbn. lia.
Qed.

(** C4.  After [twspi_begin_send] the direction bit of Data is set (output)
    and the Select level is low; it stores Select low, waits 1 us and only
    then makes Data an output.  After [twspi_end_send] the direction bit of
    Data is cleared (input) and the Select level is high; it waits 1 us,
    makes Data an input, waits 1 us and only then stores Select high. *)
Theorem twspi_begin_end_send_direction (s : state) :
  0 <= TWSPI_SEL < 8 -> 0 <= TWSPI_DATA < 8 ->
  let b := exec twspi_begin_send s in
  let e := exec twspi_end_send s in
  (Z.testbit (TWSPI_DDR b) TWSPI_DATA = true /\
   Z.testbit (TWSPI_PORT b) TWSPI_SEL = false /\
   since s b = [Write rTWSPI_PORT (TWSPI_PORT b); Delay 1;
                Write rTWSPI_DDR (TWSPI_DDR b)]) /\
  (Z.testbit (TWSPI_DDR e) TWSPI_DATA = false /\
   Z.testbit (TWSPI_PORT e) TWSPI_SEL = true /\
   since s e = [Delay 1; Write rTWSPI_DDR (TWSPI_DDR e); Delay 1;
                Write rTWSPI_PORT (TWSPI_PORT e)]).
Proof.
  intros Hsel Hdata b e. repeat split.
  - cbn. now apply testbit_set_same.
  - cbn. apply testbit_clear_same.
  - apply since_app. cbn. now rewrite <- !app_assoc.
  - cbn. apply testbit_clear_same.
  - cbn. now apply testbit_set_same.
  - apply since_app. cbn. now rewrite <- !app_assoc.
Qed.

(** ** Wake-up sources *)

(** C5.  After enabling the field wake-up, enabling the data-ready wake-up
    and disabling the field wake-up, the data-ready mask bit and the shared
    enable bit are still set.  Disabling either source leaves [PCICR] as it
    was and changes no bit of [PCMSK0] but the source's own, which it
    clears. *)
Theorem rcs926_wake_up_shared_enable (s : state) :
  0 <= PCIE0 < 8 -> 0 <= PCINT4 < 8 -> 0 <= PCINT5 < 8 -> PCINT4 <> PCINT5 ->
  let s3 := exec (rcs926_wake_up_on_rf true ;;
                  rcs926_wake_up_on_irq true ;;
                  rcs926_wake_up_on_rf false) s in
  let rf_off := exec (rcs926_wake_up_on_rf false) s in
  let irq_off := exec (rcs926_wake_up_on_irq false) s in
  (Z.testbit (PCMSK0 s3) PCINT4 = true /\
   Z.testbit (PCICR s3) PCIE0 = true /\
   Z.testbit (PCMSK0 s3) PCINT5 = false) /\
  (PCICR rf_off = PCICR s /\
   Z.testbit (PCMSK0 rf_off) PCINT5 = false /\
   forall j, 0 <= j < 8 -> j <> PCINT5 ->
             Z.testbit (PCMSK0 rf_off) j = Z.testbit (PCMSK0 s) j) /\
  (PCICR irq_off = PCICR s /\
   Z.testbit (PCMSK0 irq_off) PCINT4 = false /\
   forall j, 0 <= j < 8 -> j <> PCINT4 ->
             Z.testbit (PCMSK0 irq_off) j = Z.testbit (PCMSK0 s) j).
Proof.
  intros Hie H4 H5 Hne s3 rf_off irq_off. repeat split.
  - cbn. rewrite testbit_clear_other by lia. now apply testbit_set_same.
  - cbn. now apply testbit_set_same.
  - cbn. apply testbit_clear_same.
  - cbn. apply testbit_clear_same.
  - intros j Hj Hjne. cbn. apply testbit_clear_other; lia.
  - cbn. apply testbit_clear_same.
  - intros j Hj Hjne. cbn. apply testbit_clear_other; lia.
Qed.

(** ** Sending a byte *)

Lemma twspi_send_loop_S (i : nat) (c : Z) (s : state) :
  exec (twspi_send_loop (S i) c) s
  = exec (twspi_send_loop i (u8 (Z.shiftl c 1)))
         (send_bit_state (Z.testbit c 7) s).
Proof.
  unfold exec. cbn [twspi_send_loop]. unfold bind at 1 2.
  change 0x80 with (_BV 7). rewrite truthy_land_BV.
  destruct (Z.testbit c 7); cbn; unfold send_bit_state, send_bit_events;
    cbn; rewrite <- !app_assoc; reflexivity.
Qed.

Lemma port_after_app (p : Z) (l1 l2 : list event) :
  port_after p (l1 ++ l2) = port_after (port_after p l1) l2.
Proof.
  revert p. induction l1 as [|e l1 IH]; intros p; [reflexivity|].
  destruct e as [[] v| |]; cbn; apply IH.
Qed.

Lemma waveform_app (p : Z) (l1 l2 : list event) :
  waveform p (l1 ++ l2) = waveform p l1 ++ waveform (port_after p l1) l2.
Proof.
  revert p. induction l1 as [|e l1 IH]; intros p; [reflexivity|].
  destruct e as [[] v| |]; cbn; now rewrite IH.
Qed.

Lemma written_app (l1 l2 : list event) :
  written (l1 ++ l2) = written l1 ++ written l2.
Proof.
  induction l1 as [|e l1 IH]; [reflexivity|].
  destruct e; cbn; now rewrite IH.
Qed.

Lemma duration_app (l1 l2 : list event) :
  duration (l1 ++ l2) = duration l1 + duration l2.
Proof.
  induction l1 as [|e l1 IH]; [reflexivity|].
  destruct e; cbn; rewrite IH; lia.
Qed.

Lemma shifted_bit (c : Z) (k : nat) :
  Z.testbit (u8 (Z.shiftl c 1)) (7 - Z.of_nat k)
  = Z.testbit c (7 - Z.of_nat (S k)).
Proof.
  destruct (Z.neg_nonneg_cases (7 - Z.of_nat k)) as [H|H].
  - rewrite !Z.testbit_neg_r by lia. reflexivity.
  - rewrite testbit_u8, Z.shiftl_spec by assumption.
    replace (7 - Z.of_nat k <? 8) with true by (symmetry; apply Z.ltb_lt; lia).
    cbn [andb]. f_equal. lia.
Qed.

Section Lines.

Hypothesis CLK_bit : 0 <= TWSPI_CLK < 8.
Hypothesis DATA_bit : 0 <= TWSPI_DATA < 8.
Hypothesis CLK_DATA : TWSPI_CLK <> TWSPI_DATA.

Lemma clk_low_clk (p : Z) : Z.testbit (clk_low p) TWSPI_CLK = false.
Proof. apply testbit_clear_same. Qed.

Lemma clk_high_clk (p : Z) : Z.testbit (clk_high p) TWSPI_CLK = true.
Proof. now apply testbit_set_same. Qed.

Lemma clk_high_data (p : Z) :
  Z.testbit (clk_high p) TWSPI_DATA = Z.testbit p TWSPI_DATA.
Proof. apply testbit_set_other; lia. Qed.

Lemma data_put_data (b : bool) (p : Z) :
  Z.testbit (data_put b p) TWSPI_DATA = b.
Proof.
  destruct b; [now apply testbit_set_same | apply testbit_clear_same].
Qed.

Lemma data_put_clk (b : bool) (p : Z) :
  Z.testbit (data_put b p) TWSPI_CLK = Z.testbit p TWSPI_CLK.
Proof.
  destruct b; [apply testbit_set_other | apply testbit_clear_other]; lia.
Qed.

Lemma send_bit_waveform (b : bool) (p : Z) :
  map clk_data (waveform p (send_bit_events b p)) = bit_cycle b.
Proof.
  cbn. unfold clk_data, bit_cycle. cbn [fst snd].
  now rewrite clk_high_clk, clk_high_data, data_put_data, data_put_clk,
    clk_low_clk.
Qed.

Lemma twspi_send_loop_log (i : nat) : forall (c : Z) (s : state),
  exists tr,
    log (exec (twspi_send_loop i c) s) = log s ++ tr /\
    port_after (TWSPI_PORT s) tr = TWSPI_PORT (exec (twspi_send_loop i c) s) /\
    map clk_data (waveform (TWSPI_PORT s) tr)
    = flat_map bit_cycle
        (map (fun k => Z.testbit c (7 - Z.of_nat k)) (seq 0 i)) /\
    Forall (eq rTWSPI_PORT) (written tr).
Proof using CLK_bit DATA_bit CLK_DATA.
  induction i as [|i IH]; intros c s.
  - exists []. cbn. rewrite app_nil_r. auto.
  - rewrite twspi_send_loop_S.
    destruct (IH (u8 (Z.shiftl c 1)) (send_bit_state (Z.testbit c 7) s))
      as (tr & Hlog & Hport & Hwave & Hwr).
    exists (send_bit_events (Z.testbit c 7) (TWSPI_PORT s) ++ tr).
    assert (Hp : port_after (TWSPI_PORT s)
                   (send_bit_events (Z.testbit c 7) (TWSPI_PORT s))
                 = TWSPI_PORT (send_bit_state (Z.testbit c 7) s))
      by reflexivity.
    repeat split.
    + rewrite Hlog. cbn [send_bit_state log]. now rewrite app_assoc.
    + now rewrite port_after_app, Hp.
    + rewrite waveform_app, map_app, Hp, Hwave, send_bit_waveform.
      cbn [seq map flat_map]. f_equal.
      rewrite <- seq_shift, map_map. f_equal.
      apply map_ext. intros k. apply shifted_bit.
    + rewrite written_app. apply Forall_app. split; [|assumption].
      cbn. repeat constructor.
Qed.

(** The registers, memory and input stream a state shares with another,
    [TWSPI_PORT] and the log apart. *)
Lemma twspi_send_loop_frame (i : nat) : forall (c : Z) (s : state),
  let s' := exec (twspi_send_loop i c) s in
  TWSPI_DDR s' = TWSPI_DDR s /\ PCICR s' = PCICR s /\ PCMSK0 s' = PCMSK0 s /\
  TWSPI_PIN s' = TWSPI_PIN s /\ reads s' = reads s /\ ram s' = ram s.
Proof.
  induction i as [|i IH]; intros c s; [cbn; auto 10|].
  cbv zeta. rewrite twspi_send_loop_S.
  apply (IH (u8 (Z.shiftl c 1)) (send_bit_state (Z.testbit c 7) s)).
Qed.

Lemma send_bit_state_other (b : bool) (s : state) (j : Z) :
  0 <= j < 8 -> j <> TWSPI_CLK -> j <> TWSPI_DATA ->
  Z.testbit (TWSPI_PORT (send_bit_state b s)) j = Z.testbit (TWSPI_PORT s) j.
Proof using CLK_bit DATA_bit CLK_DATA.
  intros Hj Hc Hd. cbn [send_bit_state TWSPI_PORT]. unfold clk_high, clk_low.
  rewrite testbit_set_other by lia.
  transitivity (Z.testbit (u8 (Z.land (TWSPI_PORT s)
                                      (Z.lnot (_BV TWSPI_CLK)))) j).
  - destruct b; [apply testbit_set_other | apply testbit_clear_other]; lia.
  - apply testbit_clear_other; lia.
Qed.

Lemma twspi_send_loop_port (i : nat) : forall (c : Z) (s : state),
  let s' := exec (twspi_send_loop i c) s in
  (i <> O -> Z.testbit (TWSPI_PORT s') TWSPI_CLK = true) /\
  (forall j, 0 <= j < 8 -> j <> TWSPI_CLK -> j <> TWSPI_DATA ->
             Z.testbit (TWSPI_PORT s') j = Z.testbit (TWSPI_PORT s) j).
Proof using CLK_bit DATA_bit CLK_DATA.
  induction i as [|i IH]; intros c s; [cbn; split; congruence|].
  cbv zeta. rewrite twspi_send_loop_S.
  destruct (IH (u8 (Z.shiftl c 1)) (send_bit_state (Z.testbit c 7) s))
    as [Hclk Hother].
  split.
  - intros _. destruct i as [|i]; [apply clk_high_clk | now apply Hclk].
  - intros j Hj Hc Hd. rewrite Hother by assumption.
    now apply send_bit_state_other.
Qed.

End Lines.


(** ** Receiving a byte *)

Lemma twspi_get_loop_S (n : nat) (data : Z) (s : state) :
  twspi_get_loop (S n) data s
  = twspi_get_loop n
      (shift_in data (Z.testbit (TWSPI_PIN s (reads s)) TWSPI_DATA))
      (get_bit_state s).
Proof.
  cbn [twspi_get_loop]. unfold bind at 1 2 3. cbn.
  rewrite truthy_land_BV. unfold get_bit_state, get_bit_events, shift_in.
  rewrite <- !app_assoc. reflexivity.
Qed.

Lemma shift_in_range (data : Z) (b : bool) : 0 <= shift_in data b < 256.
Proof. unfold shift_in. destruct b; apply u8_range. Qed.

Lemma testbit_shift_in (data : Z) (b : bool) (m : Z) :
  0 <= m < 8 ->
  Z.testbit (shift_in data b) m
  = if m =? 0 then b else Z.testbit data (m - 1).
Proof.
  intros Hm. unfold shift_in.
  assert (E : Z.testbit (u8 (Z.shiftl data 1)) m
              = if m =? 0 then false else Z.testbit data (m - 1)).
  { rewrite testbit_u8, Z.shiftl_spec by lia.
    replace (m <? 8) with true by (symmetry; apply Z.ltb_lt; lia).
    destruct (Z.eqb_spec m 0) as [->|]; [apply Z.testbit_neg_r; lia|].
    reflexivity. }
  destruct b; [|exact E].
  change 1 with (_BV 0) at 2. rewrite testbit_set, E by lia.
  replace (m <? 8) with true by (symmetry; apply Z.ltb_lt; lia).
  destruct (m =? 0); [reflexivity | apply orb_false_r].
Qed.

(** After [n] iterations the [k]-th sample sits at bit [n - 1 - k] of the
    accumulator, above it the bits the accumulator started with. *)
Lemma twspi_get_loop_bits (n : nat) : forall (data : Z) (s : state),
  let r := eval (twspi_get_loop n data) s in
  (forall k, (k < n)%nat -> Z.of_nat n <= 8 ->
     Z.testbit r (Z.of_nat n - 1 - Z.of_nat k)
     = Z.testbit (TWSPI_PIN s (reads s + k)) TWSPI_DATA) /\
  (forall j, Z.of_nat n <= j < 8 ->
     Z.testbit r j = Z.testbit data (j - Z.of_nat n)) /\
  (0 <= data < 256 -> 0 <= r < 256).
Proof.
  induction n as [|n IH]; intros data s r.
  - repeat split; try (cbn; lia).
    intros j Hj. subst r. cbn. f_equal. lia.
  - subst r. unfold eval. rewrite twspi_get_loop_S.
    destruct (IH (shift_in data
                    (Z.testbit (TWSPI_PIN s (reads s)) TWSPI_DATA))
                 (get_bit_state s)) as (Hlow & Hhigh & Hrange).
    unfold eval in Hlow, Hhigh, Hrange. repeat split.
    + intros [|k] Hk Hn.
      * rewrite Nat.add_0_r.
        replace (Z.of_nat (S n) - 1 - Z.of_nat 0) with (Z.of_nat n) by lia.
        rewrite Hhigh, testbit_shift_in by lia.
        now replace (Z.of_nat n - Z.of_nat n) with 0 by lia.
      * replace (Z.of_nat (S n) - 1 - Z.of_nat (S k))
          with (Z.of_nat n - 1 - Z.of_nat k) by lia.
        rewrite Hlow by lia. cbn [get_bit_state TWSPI_PIN reads].
        now rewrite Nat.add_succ_comm.
    + intros j Hj. rewrite Hhigh, testbit_shift_in by lia.
      replace (j - Z.of_nat n =? 0) with false
        by (symmetry; apply Z.eqb_neq; lia).
      f_equal. lia.
    + apply Hrange, shift_in_range.
    + apply Hrange, shift_in_range.
Qed.

Lemma twspi_get_loop_frame (n : nat) : forall (data : Z) (s : state),
  let s' := exec (twspi_get_loop n data) s in
  TWSPI_DDR s' = TWSPI_DDR s /\ PCICR s' = PCICR s /\ PCMSK0 s' = PCMSK0 s /\
  TWSPI_PIN s' = TWSPI_PIN s /\ reads s' = (reads s + n)%nat /\
  ram s' = ram s.
Proof.
  induction n as [|n IH]; intros data s.
  - cbn. rewrite Nat.add_0_r. auto 10.
  - cbv zeta. unfold exec. rewrite twspi_get_loop_S.
    destruct (IH (shift_in data
                    (Z.testbit (TWSPI_PIN s (reads s)) TWSPI_DATA))
                 (get_bit_state s)) as (H1 & H2 & H3 & H4 & H5 & H6).
    unfold exec in *. rewrite H1, H2, H3, H4, H5, H6.
    cbn [get_bit_state TWSPI_DDR PCICR PCMSK0 TWSPI_PIN reads ram].
    rewrite Nat.add_succ_comm. auto 10.
Qed.

Lemma get_bit_waveform (pin p : Z) :
  0 <= TWSPI_CLK < 8 ->
  map clk (waveform p (get_bit_events pin p)) = clk_cycle.
Proof.
  intros Hclk. cbn. unfold clk, clk_cycle. cbn [fst snd].
  unfold clk_high, clk_low.
  now rewrite testbit_clear_same, testbit_set_same.
Qed.

Lemma flat_map_const_seq {A : Type} (l : list A) (n : nat) : forall a,
  flat_map (fun _ : nat => l) (seq a n) = flat_map (fun _ => l) (seq 0 n).
Proof.
  induction n as [|n IH]; intros a; [reflexivity|].
  cbn [seq flat_map]. now rewrite (IH (S a)), (IH 1%nat).
Qed.

Lemma twspi_get_loop_log (n : nat) : forall (data : Z) (s : state),
  0 <= TWSPI_CLK < 8 ->
  exists tr,
    log (exec (twspi_get_loop n data) s) = log s ++ tr /\
    port_after (TWSPI_PORT s) tr = TWSPI_PORT (exec (twspi_get_loop n data) s) /\
    map clk (waveform (TWSPI_PORT s) tr)
    = flat_map (fun _ => clk_cycle) (seq 0 n) /\
    Forall (eq rTWSPI_PORT) (written tr).
Proof.
  induction n as [|n IH]; intros data s Hclk.
  - exists []. cbn. rewrite app_nil_r. auto.
  - unfold exec. rewrite twspi_get_loop_S.
    destruct (IH (shift_in data
                    (Z.testbit (TWSPI_PIN s (reads s)) TWSPI_DATA))
                 (get_bit_state s) Hclk) as (tr & Hlog & Hport & Hwave & Hwr).
    unfold exec in Hlog, Hport.
    exists (get_bit_events (TWSPI_PIN s (reads s)) (TWSPI_PORT s) ++ tr).
    assert (Hp : port_after (TWSPI_PORT s)
                   (get_bit_events (TWSPI_PIN s (reads s)) (TWSPI_PORT s))
                 = TWSPI_PORT (get_bit_state s)) by reflexivity.
    repeat split.
    + rewrite Hlog. cbn [get_bit_state log]. now rewrite app_assoc.
    + now rewrite port_after_app, Hp.
    + rewrite waveform_app, map_app, Hp, Hwave, get_bit_waveform
        by assumption.
      cbn [seq flat_map]. f_equal. symmetry. apply flat_map_const_seq.
    + rewrite written_app. apply Forall_app. split; [|assumption].
      cbn. repeat constructor.
Qed.

Lemma twspi_get_loop_port (n : nat) : forall (data : Z) (s : state),
  0 <= TWSPI_CLK < 8 ->
  let s' := exec (twspi_get_loop n data) s in
  (n <> O -> Z.testbit (TWSPI_PORT s') TWSPI_CLK = true) /\
  (forall j, 0 <= j < 8 -> j <> TWSPI_CLK ->
             Z.testbit (TWSPI_PORT s') j = Z.testbit (TWSPI_PORT s) j).
Proof.
  induction n as [|n IH]; intros data s Hclk; [cbn; split; congruence|].
  cbv zeta. unfold exec. rewrite twspi_get_loop_S.
  destruct (IH (shift_in data
                  (Z.testbit (TWSPI_PIN s (reads s)) TWSPI_DATA))
               (get_bit_state s) Hclk) as [Hhigh Hother].
  unfold exec in Hhigh, Hother. split.
  - intros _. destruct n as [|n]; [|now apply Hhigh].
    cbn. unfold clk_high. now apply testbit_set_same.
  - intros j Hj Hne. rewrite Hother by assumption.
    cbn [get_bit_state TWSPI_PORT]. unfold clk_high, clk_low.
    rewrite testbit_set_other, testbit_clear_other by lia. reflexivity.
Qed.

(** The byte [twspi_get] returns, bit by bit, and the reads it consumes. *)
Lemma twspi_get_byte (s : state) :
  0 <= eval twspi_get s < 256 /\
  bits_msb (eval twspi_get s) = data_levels s 0 8.
Proof.
  destruct (twspi_get_loop_bits 8 0 s) as (Hlow & _ & Hrange).
  split; [apply Hrange; lia|].
  unfold bits_msb, data_levels. apply map_ext_in. intros i Hi.
  apply in_seq in Hi. rewrite Nat.add_0_r, <- Hlow by lia.
  unfold twspi_get. f_equal.
Qed.

(** C10.  [twspi_send] and [twspi_get] return with Clock high.  Neither
    changes a direction bit or the pin-change interrupt registers, and every
    store either makes is to [TWSPI_PORT]; there [twspi_get] changes no line
    but Clock, and [twspi_send] none but Clock and Data, so the levels of
    Select and of the power switch stay as they were. *)
Theorem twspi_send_get_frame (c : Z) (s : state) :
  0 <= TWSPI_CLK < 8 -> 0 <= TWSPI_DATA < 8 -> TWSPI_CLK <> TWSPI_DATA ->
  let s1 := exec (twspi_send c) s in
  let s2 := exec twspi_get s in
  (Z.testbit (TWSPI_PORT s1) TWSPI_CLK = true /\
   Z.testbit (TWSPI_PORT s2) TWSPI_CLK = true) /\
  (TWSPI_DDR s1 = TWSPI_DDR s /\ PCICR s1 = PCICR s /\
   PCMSK0 s1 = PCMSK0 s /\
   Forall (eq rTWSPI_PORT) (written (since s s1)) /\
   forall j, 0 <= j < 8 -> j <> TWSPI_CLK -> j <> TWSPI_DATA ->
             Z.testbit (TWSPI_PORT s1) j = Z.testbit (TWSPI_PORT s) j) /\
  (TWSPI_DDR s2 = TWSPI_DDR s /\ PCICR s2 = PCICR s /\
   PCMSK0 s2 = PCMSK0 s /\
   Forall (eq rTWSPI_PORT) (written (since s s2)) /\
   forall j, 0 <= j < 8 -> j <> TWSPI_CLK ->
             Z.testbit (TWSPI_PORT s2) j = Z.testbit (TWSPI_PORT s) j).
Proof.
  intros Hclk Hdata Hne s1 s2.
  destruct (twspi_send_loop_port Hclk Hdata Hne 8 c s) as [Hhigh1 Hother1].
  destruct (twspi_get_loop_port 8 0 s Hclk) as [Hhigh2 Hother2].
  destruct (twspi_send_loop_frame 8 c s) as (D1 & I1 & K1 & _).
  destruct (twspi_get_loop_frame 8 0 s) as (D2 & I2 & K2 & _).
  destruct (twspi_send_loop_log Hclk Hdata Hne 8 c s)
    as (tr1 & Hlog1 & _ & _ & Hwr1).
  destruct (twspi_get_loop_log 8 0 s Hclk) as (tr2 & Hlog2 & _ & _ & Hwr2).
  subst s1 s2. unfold twspi_send, twspi_get.
  rewrite (since_app _ _ _ Hlog1), (since_app _ _ _ Hlog2).
  repeat split; auto.
Qed.

(** ** Buffers *)

Lemma addrs_S (buf : Z) (n : nat) :
  addrs buf (S n) = buf :: addrs (buf + 1) n.
Proof.
  unfold addrs. cbn [seq map]. rewrite Z.add_0_r. f_equal.
  rewrite <- seq_shift, map_map. apply map_ext. intros k. lia.
Qed.

Lemma addrs_length (buf : Z) (n : nat) : length (addrs buf n) = n.
Proof. unfold addrs. now rewrite length_map, length_seq. Qed.

Lemma fold_left_addrs_1 (f : state -> Z -> state) (buf : Z) (s : state) :
  fold_left f (buf :: addrs (buf + 1) 0) s = f s buf.
Proof. reflexivity. Qed.

Lemma fold_left_cons (f : state -> Z -> state) (a : Z) (l : list Z) s :
  fold_left f (a :: l) s = fold_left f l (f s a).
Proof. reflexivity. Qed.

Lemma truthy_of_nat (m : nat) :
  truthy (Z.of_nat m) = match m with O => false | S _ => true end.
Proof.
  unfold truthy. destruct m; [reflexivity|].
  apply negb_true_iff, Z.eqb_neq. lia.
Qed.

Lemma twspi_send_buf_loop_S (fuel : nat) (buf len : Z) (s : state) :
  twspi_send_buf_loop (S fuel) buf len s
  = if truthy (u8 (len - 1))
    then twspi_send_buf_loop fuel (buf + 1) (u8 (len - 1)) (send_at s buf)
    else Some (send_at s buf).
Proof. reflexivity. Qed.

Lemma twspi_get_buf_loop_S (fuel : nat) (buf len : Z) (s : state) :
  twspi_get_buf_loop (S fuel) buf len s
  = if truthy (u8 (len - 1))
    then twspi_get_buf_loop fuel (buf + 1) (u8 (len - 1)) (get_to s buf)
    else Some (get_to s buf).
Proof. reflexivity. Qed.

(** The loops stop when the decremented counter reaches zero: with
    [u8 (len - 1) = m] the body runs [m + 1] times, on consecutive
    addresses. *)
Lemma twspi_send_buf_loop_run (m : nat) : forall (fuel : nat) (buf len : Z) s,
  u8 (len - 1) = Z.of_nat m -> (m < fuel)%nat ->
  twspi_send_buf_loop fuel buf len s
  = Some (fold_left send_at (addrs buf (S m)) s).
Proof.
  induction m as [|m IH]; intros fuel buf len s Hlen Hfuel;
    (destruct fuel as [|fuel]; [lia|]);
    rewrite twspi_send_buf_loop_S, Hlen, truthy_of_nat, addrs_S.
  - now rewrite fold_left_addrs_1.
  - rewrite fold_left_cons. apply IH; [|lia]. pose proof (u8_range (len - 1)).
    replace (Z.of_nat m) with (Z.of_nat (S m) - 1) by lia.
    apply u8_small. lia.
Qed.

Lemma twspi_get_buf_loop_run (m : nat) : forall (fuel : nat) (buf len : Z) s,
  u8 (len - 1) = Z.of_nat m -> (m < fuel)%nat ->
  twspi_get_buf_loop fuel buf len s
  = Some (fold_left get_to (addrs buf (S m)) s).
Proof.
  induction m as [|m IH]; intros fuel buf len s Hlen Hfuel;
    (destruct fuel as [|fuel]; [lia|]);
    rewrite twspi_get_buf_loop_S, Hlen, truthy_of_nat, addrs_S.
  - now rewrite fold_left_addrs_1.
  - rewrite fold_left_cons. apply IH; [|lia]. pose proof (u8_range (len - 1)).
    replace (Z.of_nat m) with (Z.of_nat (S m) - 1) by lia.
    apply u8_small. lia.
Qed.

(** The number of times a buffer loop runs its body for a given [len]. *)
Lemma twspi_send_buf_iterations (buf len : Z) (s : state) :
  0 <= len < 256 ->
  twspi_send_buf buf len s
  = Some (fold_left send_at
            (addrs buf (Z.to_nat (if len =? 0 then 256 else len))) s).
Proof.
  intros Hlen. unfold twspi_send_buf.
  rewrite (twspi_send_buf_loop_run (Z.to_nat (u8 (len - 1))));
    pose proof (u8_range (len - 1)); [|lia|lia].
  do 3 f_equal. destruct (Z.eqb_spec len 0) as [->|Hne]; [reflexivity|].
  rewrite u8_small by lia. lia.
Qed.

Lemma twspi_get_buf_iterations (buf len : Z) (s : state) :
  0 <= len < 256 ->
  twspi_get_buf buf len s
  = Some (fold_left get_to
            (addrs buf (Z.to_nat (if len =? 0 then 256 else len))) s).
Proof.
  intros Hlen. unfold twspi_get_buf.
  rewrite (twspi_get_buf_loop_run (Z.to_nat (u8 (len - 1))));
    pose proof (u8_range (len - 1)); [|lia|lia].
  do 3 f_equal. destruct (Z.eqb_spec len 0) as [->|Hne]; [reflexivity|].
  rewrite u8_small by lia. lia.
Qed.

Lemma send_at_eq (s : state) (a : Z) : send_at s a = send_byte s (ram s a).
Proof. reflexivity. Qed.

Lemma send_byte_ram (s : state) (c : Z) : ram (send_byte s c) = ram s.
Proof. apply (twspi_send_loop_frame 8 c s). Qed.

Lemma send_fold_bytes (l : list Z) : forall s,
  fold_left send_at l s = fold_left send_byte (map (ram s) l) s.
Proof.
  induction l as [|a l IH]; intros s; [reflexivity|].
  cbn [map]. rewrite !fold_left_cons, IH, send_at_eq, send_byte_ram.
  reflexivity.
Qed.

Lemma send_fold_log (bs : list Z) : forall s,
  0 <= TWSPI_CLK < 8 -> 0 <= TWSPI_DATA < 8 -> TWSPI_CLK <> TWSPI_DATA ->
  exists tr,
    log (fold_left send_byte bs s) = log s ++ tr /\
    port_after (TWSPI_PORT s) tr = TWSPI_PORT (fold_left send_byte bs s) /\
    map clk_data (waveform (TWSPI_PORT s) tr) = flat_map byte_cycles bs.
Proof.
  induction bs as [|c bs IH]; intros s Hclk Hdata Hne.
  - exists []. cbn. now rewrite app_nil_r.
  - rewrite fold_left_cons.
    destruct (twspi_send_loop_log Hclk Hdata Hne 8 c s)
      as (tr1 & Hlog1 & Hport1 & Hwave1 & _).
    fold (twspi_send c) in Hlog1, Hport1. fold (send_byte s c) in Hlog1, Hport1.
    destruct (IH (send_byte s c) Hclk Hdata Hne) as (tr2 & Hlog2 & Hport2 & Hwave2).
    exists (tr1 ++ tr2). repeat split.
    + now rewrite Hlog2, Hlog1, app_assoc.
    + now rewrite port_after_app, Hport1.
    + rewrite waveform_app, map_app, Hport1, Hwave1, Hwave2. reflexivity.
Qed.

(** C3.  For a non-empty byte sequence [bs] stored from address [buf] on,
    [twspi_send_buf buf (length bs)] ends in the state that calling
    [twspi_send] on each element of [bs], once and in the order of [bs],
    leads to; on the bus the bytes of [bs] follow each other in that order. *)
Theorem twspi_send_buf_in_order (bs : list Z) (buf : Z) (s : state) :
  0 <= TWSPI_CLK < 8 -> 0 <= TWSPI_DATA < 8 -> TWSPI_CLK <> TWSPI_DATA ->
  bs <> [] -> (length bs <= 255)%nat ->
  map (ram s) (addrs buf (length bs)) = bs ->
  twspi_send_buf buf (Z.of_nat (length bs)) s
  = Some (fold_left send_byte bs s) /\
  map clk_data (waveform (TWSPI_PORT s)
                         (since s (fold_left send_byte bs s)))
  = flat_map byte_cycles bs.
Proof.
  intros Hclk Hdata Hne Hbs Hlen Hram. split.
  - rewrite twspi_send_buf_iterations by lia.
    assert (Hpos : length bs <> O) by (destruct bs; [congruence | discriminate]).
    replace (Z.of_nat (length bs) =? 0) with false
      by (symmetry; apply Z.eqb_neq; lia).
    now rewrite Nat2Z.id, send_fold_bytes, Hram.
  - destruct (send_fold_log bs s Hclk Hdata Hne) as (tr & Hlog & _ & Hwave).
    now rewrite (since_app _ _ _ Hlog).
Qed.

Lemma exec_bind {A B : Type} (m : M A) (k : A -> M B) (s : state) :
  exec (x <- m ;; k x) s = exec (k (eval m s)) (exec m s).
Proof. unfold exec, eval, bind. destruct (m s). reflexivity. Qed.

Lemma store_reads (a v : Z) (s : state) : reads (exec (store a v) s) = reads s.
Proof. reflexivity. Qed.

Lemma store_pin (a v : Z) (s : state) :
  TWSPI_PIN (exec (store a v) s) = TWSPI_PIN s.
Proof. reflexivity. Qed.

Lemma store_ram (a v : Z) (s : state) (a' : Z) :
  ram (exec (store a v) s) a' = if a' =? a then v else ram s a'.
Proof. reflexivity. Qed.

Lemma get_to_eq (s : state) (a : Z) :
  get_to s a = exec (store a (eval twspi_get s)) (exec twspi_get s).
Proof. unfold get_to. apply exec_bind. Qed.

Lemma twspi_get_frame (s : state) :
  TWSPI_PIN (exec twspi_get s) = TWSPI_PIN s /\
  reads (exec twspi_get s) = (reads s + 8)%nat /\
  ram (exec twspi_get s) = ram s.
Proof. apply (twspi_get_loop_frame 8 0 s). Qed.

Lemma get_to_spec (s : state) (a : Z) :
  reads (get_to s a) = (reads s + 8)%nat /\
  TWSPI_PIN (get_to s a) = TWSPI_PIN s /\
  forall a', ram (get_to s a) a'
             = if a' =? a then eval twspi_get s else ram s a'.
Proof.
  destruct (twspi_get_frame s) as (Hpin & Hreads & Hram).
  rewrite get_to_eq, store_reads, store_pin.
  split; [assumption|]. split; [assumption|].
  intros a'. now rewrite store_ram, Hram.
Qed.

Lemma data_levels_shift (s s' : state) (off : nat) :
  TWSPI_PIN s' = TWSPI_PIN s -> reads s' = (reads s + 8)%nat ->
  data_levels s' off 8 = data_levels s (8 + off) 8.
Proof.
  intros Hpin Hreads. unfold data_levels. rewrite Hpin, Hreads.
  apply map_ext. intros i. do 2 f_equal. lia.
Qed.

(** Receiving into [n] consecutive addresses consumes [8 * n] reads and
    leaves at the [k]-th address the byte assembled from the [k]-th group of
    eight samples; memory outside the addresses is untouched. *)
Lemma get_fold_spec (n : nat) : forall (buf : Z) (s : state),
  let s' := fold_left get_to (addrs buf n) s in
  reads s' = (reads s + 8 * n)%nat /\
  TWSPI_PIN s' = TWSPI_PIN s /\
  (forall a, a < buf \/ buf + Z.of_nat n <= a -> ram s' a = ram s a) /\
  (forall k, (k < n)%nat ->
     0 <= ram s' (buf + Z.of_nat k) < 256 /\
     bits_msb (ram s' (buf + Z.of_nat k)) = data_levels s (8 * k) 8).
Proof.
  induction n as [|n IH]; intros buf s.
  - cbn. repeat split; lia.
  - cbv zeta. rewrite addrs_S, fold_left_cons.
    destruct (get_to_spec s buf) as (Hreads1 & Hpin1 & Hram1).
    destruct (IH (buf + 1) (get_to s buf)) as (Hreads & Hpin & Hout & Hin).
    split; [rewrite Hreads, Hreads1; lia|].
    split; [now rewrite Hpin|].
    split.
    + intros a Ha. rewrite Hout, Hram1 by lia.
      destruct (Z.eqb_spec a buf); [lia | reflexivity].
    + intros [|k] Hk.
      * rewrite Z.add_0_r, Hout, Hram1, Z.eqb_refl by lia.
        apply twspi_get_byte.
      * replace (buf + Z.of_nat (S k)) with (buf + 1 + Z.of_nat k) by lia.
        destruct (Hin k) as [Hrange ->]; [lia|].
        split; [exact Hrange|].
        rewrite (data_levels_shift s) by assumption.
        f_equal. lia.
Qed.

Lemma bits_msb_inj (a b : Z) :
  0 <= a < 256 -> 0 <= b < 256 -> bits_msb a = bits_msb b -> a = b.
Proof.
  intros Ha Hb H. apply Z.bits_inj'. intros j Hj.
  destruct (Z.lt_ge_cases j 8) as [Hlt|Hge].
  - unfold bits_msb in H.
    assert (Hin : In (Z.to_nat (7 - j)) (seq 0 8)) by (apply in_seq; lia).
    pose proof (proj1 map_ext_in_iff H _ Hin) as E. cbv beta in E.
    now replace (7 - Z.of_nat (Z.to_nat (7 - j))) with j in E by lia.
  - rewrite <- (u8_small a), <- (u8_small b), !testbit_u8 by assumption.
    now replace (j <? 8) with false by (symmetry; apply Z.ltb_ge; lia).
Qed.

Lemma map_ram_addrs (m : Z -> Z) (bs : list Z) : forall buf,
  (forall k, (k < length bs)%nat -> m (buf + Z.of_nat k) = nth k bs 0) ->
  map m (addrs buf (length bs)) = bs.
Proof.
  induction bs as [|b bs IH]; intros buf H; [reflexivity|].
  cbn [length]. rewrite addrs_S. cbn [map]. f_equal.
  - rewrite <- (Z.add_0_r buf). apply (H O). cbn. lia.
  - apply IH. intros k Hk.
    replace (buf + 1 + Z.of_nat k) with (buf + Z.of_nat (S k)) by lia.
    apply (H (S k)). cbn. lia.
Qed.

Lemma map_seq_from (A : Type) (f : nat -> A) (n : nat) : forall a,
  map f (seq a n) = map (fun i => f (a + i)%nat) (seq 0 n).
Proof.
  induction n as [|n IH]; intros a; [reflexivity|].
  cbn [seq map]. rewrite Nat.add_0_r. f_equal.
  rewrite (IH (S a)), <- seq_shift, map_map. apply map_ext.
  intros i. f_equal. lia.
Qed.

Lemma store_log (a v : Z) (s : state) : log (exec (store a v) s) = log s.
Proof. reflexivity. Qed.

Lemma store_port (a v : Z) (s : state) :
  TWSPI_PORT (exec (store a v) s) = TWSPI_PORT s.
Proof. reflexivity. Qed.

Lemma get_events_app (l1 l2 : list Z) : forall p,
  get_events (l1 ++ l2) p
  = get_events l1 p ++ get_events l2 (port_after p (get_events l1 p)).
Proof.
  induction l1 as [|pin l1 IH]; intros p; [reflexivity|].
  cbn [app get_events]. rewrite IH, port_after_app, <- app_assoc.
  reflexivity.
Qed.

(** The log of [twspi_get_loop] sample by sample: the [k]-th read is the
    only read of the [k]-th Clock cycle. *)
Lemma twspi_get_loop_events (n : nat) : forall (data : Z) (s : state),
  log (exec (twspi_get_loop n data) s)
  = log s ++ get_events (map (fun k => TWSPI_PIN s (reads s + k)) (seq 0 n))
                        (TWSPI_PORT s) /\
  TWSPI_PORT (exec (twspi_get_loop n data) s)
  = port_after (TWSPI_PORT s)
      (get_events (map (fun k => TWSPI_PIN s (reads s + k)) (seq 0 n))
                  (TWSPI_PORT s)).
Proof.
  induction n as [|n IH]; intros data s.
  - cbn. now rewrite app_nil_r.
  - unfold exec. rewrite twspi_get_loop_S.
    destruct (IH (shift_in data
                    (Z.testbit (TWSPI_PIN s (reads s)) TWSPI_DATA))
                 (get_bit_state s)) as [Hlog Hport].
    unfold exec in Hlog, Hport. rewrite Hlog, Hport.
    cbn [get_bit_state log TWSPI_PORT TWSPI_PIN reads].
    cbn [seq map get_events]. rewrite Nat.add_0_r, <- seq_shift, map_map.
    rewrite (map_ext (fun k => TWSPI_PIN s (S (reads s) + k))
                     (fun k => TWSPI_PIN s (reads s + S k)))
      by (intros k; f_equal; lia).
    split.
    + now rewrite <- app_assoc.
    + now rewrite port_after_app.
Qed.

Lemma twspi_get_events (s : state) :
  log (exec twspi_get s)
  = log s ++ get_events (map (fun k => TWSPI_PIN s (reads s + k)) (seq 0 8))
                        (TWSPI_PORT s) /\
  TWSPI_PORT (exec twspi_get s)
  = port_after (TWSPI_PORT s)
      (get_events (map (fun k => TWSPI_PIN s (reads s + k)) (seq 0 8))
                  (TWSPI_PORT s)).
Proof. apply (twspi_get_loop_events 8 0 s). Qed.

(** Receiving [n] bytes is [8 * n] such cycles in a row. *)
Lemma get_fold_events (n : nat) : forall (buf : Z) (s : state),
  log (fold_left get_to (addrs buf n) s)
  = log s ++ get_events
               (map (fun k => TWSPI_PIN s (reads s + k)) (seq 0 (8 * n)))
               (TWSPI_PORT s).
Proof.
  induction n as [|n IH]; intros buf s.
  - cbn. now rewrite app_nil_r.
  - rewrite addrs_S, fold_left_cons, IH.
    destruct (get_to_spec s buf) as (Hreads & Hpin & _).
    destruct (twspi_get_events s) as [Hlog Hport].
    rewrite Hreads, Hpin, get_to_eq, store_log, store_port, Hlog, Hport.
    replace (8 * S n)%nat with (8 + 8 * n)%nat by lia.
    rewrite seq_app, map_app, get_events_app, <- app_assoc.
    apply (f_equal (fun l => log s ++ _ ++ get_events l _)).
    cbn [Nat.add]. rewrite (map_seq_from _ _ (8 * n) 8).
    apply map_ext. intros k. f_equal. lia.
Qed.

(** C2.  [twspi_get] makes eight Clock cycles of its own, low for 1 us and
    high for 1 us, and reads the input register once in each: its log is,
    for the samples in turn, Clock stored low, 1 us, the read of the sample,
    Clock stored high, 1 us.  It returns the byte whose bits, most
    significant first, are the eight Data levels it sampled.  For a length
    [n] from 1 to 255, [twspi_get_buf] runs [*buf = twspi_get()] that many
    times on consecutive addresses: its log is [8 * n] such cycles, the k-th
    read in the k-th cycle, and the k-th address receives the byte of the
    k-th group of eight samples; when the Data line carries the bytes [bs],
    the buffer ends up holding [bs]. *)
Theorem twspi_get_buf_msb_first (buf : Z) (s : state) :
  0 <= TWSPI_CLK < 8 ->
  (0 <= eval twspi_get s < 256 /\
   bits_msb (eval twspi_get s) = data_levels s 0 8 /\
   reads (exec twspi_get s) = (reads s + 8)%nat /\
   map clk (waveform (TWSPI_PORT s) (since s (exec twspi_get s)))
   = flat_map (fun _ => clk_cycle) (seq 0 8) /\
   since s (exec twspi_get s)
   = get_events (map (fun k => TWSPI_PIN s (reads s + k)) (seq 0 8))
                (TWSPI_PORT s)) /\
  (forall n, (1 <= n <= 255)%nat ->
     twspi_get_buf buf (Z.of_nat n) s
     = Some (fold_left get_to (addrs buf n) s) /\
     since s (fold_left get_to (addrs buf n) s)
     = get_events (map (fun k => TWSPI_PIN s (reads s + k)) (seq 0 (8 * n)))
                  (TWSPI_PORT s) /\
     forall k, (k < n)%nat ->
       0 <= ram (fold_left get_to (addrs buf n) s) (buf + Z.of_nat k) < 256 /\
       bits_msb (ram (fold_left get_to (addrs buf n) s) (buf + Z.of_nat k))
       = data_levels s (8 * k) 8) /\
  (forall bs, bs <> [] -> (length bs <= 255)%nat ->
     Forall (fun b => 0 <= b < 256) bs ->
     (forall k, (k < length bs)%nat ->
        data_levels s (8 * k) 8 = bits_msb (nth k bs 0)) ->
     exists s',
       twspi_get_buf buf (Z.of_nat (length bs)) s = Some s' /\
       map (ram s') (addrs buf (length bs)) = bs).
Proof.
  intros Hclk.
  assert (Hiter : forall n, (1 <= n <= 255)%nat ->
            twspi_get_buf buf (Z.of_nat n) s
            = Some (fold_left get_to (addrs buf n) s)).
  { intros n Hn. rewrite twspi_get_buf_iterations by lia.
    replace (Z.of_nat n =? 0) with false by (symmetry; apply Z.eqb_neq; lia).
    now rewrite Nat2Z.id. }
  split; [|split].
  - destruct (twspi_get_byte s) as [Hrange Hbits].
    destruct (twspi_get_frame s) as (_ & Hreads & _).
    destruct (twspi_get_loop_log 8 0 s Hclk) as (tr & Hlog & _ & Hwave & _).
    split; [exact Hrange|]. split; [exact Hbits|]. split; [exact Hreads|].
    split.
    + unfold twspi_get. rewrite (since_app _ _ _ Hlog). exact Hwave.
    + apply since_app. apply twspi_get_events.
  - intros n Hn. split; [now apply Hiter|]. split.
    + apply since_app. apply get_fold_events.
    + apply (get_fold_spec n buf s).
  - intros bs Hne Hlen Hrange Hdata.
    assert (Hpos : length bs <> O) by (destruct bs; [congruence | discriminate]).
    exists (fold_left get_to (addrs buf (length bs)) s).
    split; [apply Hiter; lia|].
    apply map_ram_addrs. intros k Hk.
    destruct (get_fold_spec (length bs) buf s) as (_ & _ & _ & Hin).
    destruct (Hin k Hk) as [Hr Hb].
    apply bits_msb_inj; [exact Hr| |now rewrite Hb, Hdata].
    apply (proj1 (Forall_forall _ _) Hrange). now apply nth_In.
Qed.

Lemma send_bit_duration (b : bool) (s : state) :
  duration (log (send_bit_state b s)) = duration (log s) + 2.
Proof. cbn [send_bit_state log]. rewrite duration_app. reflexivity. Qed.

Lemma twspi_send_loop_duration (i : nat) : forall (c : Z) (s : state),
  duration (log (exec (twspi_send_loop i c) s))
  = duration (log s) + 2 * Z.of_nat i.
Proof.
  induction i as [|i IH]; intros c s.
  - cbn. lia.
  - rewrite twspi_send_loop_S, IH, send_bit_duration. lia.
Qed.

Lemma send_fold_duration (bs : list Z) : forall s,
  duration (log (fold_left send_byte bs s))
  = duration (log s) + 16 * Z.of_nat (length bs).
Proof.
  induction bs as [|c bs IH]; intros s.
  - cbn. lia.
  - rewrite fold_left_cons, IH. unfold send_byte, twspi_send.
    rewrite twspi_send_loop_duration. cbn [length]. lia.
Qed.

(** C6.  With [len = 0] the decrement wraps the counter to 255, so both
    buffer loops run their body 256 times: [twspi_send_buf] sends the 256
    bytes found from [buf] on, busy-waiting 4096 us, and [twspi_get_buf]
    consumes 2048 reads and overwrites the 256 bytes from [buf] on.  Neither
    returns without doing anything. *)
Theorem twspi_buf_zero_length_wraps (buf : Z) (s : state) :
  u8 (0 - 1) = 255 /\
  (twspi_send_buf buf 0 s
   = Some (fold_left send_byte (map (ram s) (addrs buf 256)) s) /\
   length (map (ram s) (addrs buf 256)) = 256%nat /\
   duration (log (fold_left send_byte (map (ram s) (addrs buf 256)) s))
   = duration (log s) + 4096) /\
  (twspi_get_buf buf 0 s = Some (fold_left get_to (addrs buf 256) s) /\
   length (addrs buf 256) = 256%nat /\
   reads (fold_left get_to (addrs buf 256) s) = (reads s + 2048)%nat /\
   forall k, (k < 256)%nat ->
     bits_msb (ram (fold_left get_to (addrs buf 256) s) (buf + Z.of_nat k))
     = data_levels s (8 * k) 8).
Proof.
  split; [reflexivity|]. split.
  - rewrite twspi_send_buf_iterations by lia.
    change (Z.to_nat (if 0 =? 0 then 256 else 0)) with 256%nat.
    rewrite send_fold_bytes, send_fold_duration, length_map, addrs_length.
    repeat split.
  - rewrite twspi_get_buf_iterations by lia.
    change (Z.to_nat (if 0 =? 0 then 256 else 0)) with 256%nat.
    destruct (get_fold_spec 256 buf s) as (Hreads & _ & _ & Hin).
    rewrite addrs_length. repeat split.
    + exact Hreads.
    + intros k Hk. now apply Hin.
Qed.

(** * Further properties of the driver *)

(** ** More bit-level facts *)

Lemma testbit_high (x j : Z) : 0 <= x < 256 -> 8 <= j -> Z.testbit x j = false.
Proof.
  intros Hx Hj. rewrite <- (u8_small x Hx), testbit_u8 by lia.
  now replace (j <? 8) with false by (symmetry; apply Z.ltb_ge; lia).
Qed.

Lemma testbit_u8_high (x j : Z) : 8 <= j -> Z.testbit (u8 x) j = false.
Proof. intros Hj. apply testbit_high; [apply u8_range | assumption]. Qed.

Lemma testbit_u8_low (x j : Z) :
  0 <= j < 8 -> Z.testbit (u8 x) j = Z.testbit x j.
Proof.
  intros Hj. rewrite testbit_u8 by lia.
  now replace (j <? 8) with true by (symmetry; apply Z.ltb_lt; lia).
Qed.

(** Two 8-bit values with the same low eight bits are equal. *)
Lemma byte_bits_inj (x y : Z) :
  0 <= x < 256 -> 0 <= y < 256 ->
  (forall j, 0 <= j < 8 -> Z.testbit x j = Z.testbit y j) -> x = y.
Proof.
  intros Hx Hy H. apply Z.bits_inj'. intros j Hj.
  destruct (Z.lt_ge_cases j 8); [apply H; lia|].
  now rewrite !testbit_high by assumption.
Qed.

Lemma testbit_clear3 (a b c v j : Z) :
  0 <= a -> 0 <= b -> 0 <= c -> 0 <= j < 8 ->
  Z.testbit (u8 (Z.land v (Z.land (Z.land (Z.lnot (_BV a)) (Z.lnot (_BV b)))
                                  (Z.lnot (_BV c))))) j
  = Z.testbit v j && negb (j =? a) && negb (j =? b) && negb (j =? c).
Proof.
  intros Ha Hb Hc Hj.
  rewrite testbit_u8_low, !Z.land_spec, !Z.lnot_spec, !testbit_BV by lia.
  destruct (Z.testbit v j), (j =? a), (j =? b), (j =? c); reflexivity.
Qed.

(** ** Directions *)

(** X1.  [twspi_init] makes Select, Clock and the power switch outputs with
    three stores to the direction register and no wait; every other
    direction bit, the output levels and the interrupt registers stay as
    they were. *)
Theorem twspi_init_directions (s : state) :
  0 <= TWSPI_SEL < 8 -> 0 <= TWSPI_CLK < 8 -> 0 <= TWSPI_SW < 8 ->
  let s' := exec twspi_init s in
  (Z.testbit (TWSPI_DDR s') TWSPI_SEL = true /\
   Z.testbit (TWSPI_DDR s') TWSPI_CLK = true /\
   Z.testbit (TWSPI_DDR s') TWSPI_SW = true) /\
  (forall j, 0 <= j < 8 ->
     j <> TWSPI_SEL -> j <> TWSPI_CLK -> j <> TWSPI_SW ->
     Z.testbit (TWSPI_DDR s') j = Z.testbit (TWSPI_DDR s) j) /\
  TWSPI_PORT s' = TWSPI_PORT s /\
  PCICR s' = PCICR s /\ PCMSK0 s' = PCMSK0 s /\
  written (since s s') = [rTWSPI_DDR; rTWSPI_DDR; rTWSPI_DDR] /\
  duration (since s s') = 0.
Proof.
  intros Hsel Hclk Hsw s'.
  assert (E : since s s'
              = [Write rTWSPI_DDR (u8 (Z.lor (TWSPI_DDR s) (_BV TWSPI_SEL)));
                 Write rTWSPI_DDR
                   (u8 (Z.lor (u8 (Z.lor (TWSPI_DDR s) (_BV TWSPI_SEL)))
                              (_BV TWSPI_CLK)));
                 Write rTWSPI_DDR (TWSPI_DDR s')])
    by (apply since_app; cbn; now rewrite <- !app_assoc).
  split; [now apply twspi_init_outputs|].
  split.
  - intros j Hj H1 H2 H3. cbn. now rewrite !testbit_set_other by lia.
  - rewrite E. repeat split.
Qed.

(** X2.  [twspi_disable] changes no direction bit but those of Select,
    Clock and the power switch and leaves the output levels alone.  Run
    after [twspi_init] from a state in which the three lines were inputs, it
    gives back the direction register [twspi_init] started from. *)
Theorem twspi_disable_undoes_init (s : state) :
  0 <= TWSPI_SEL < 8 -> 0 <= TWSPI_CLK < 8 -> 0 <= TWSPI_SW < 8 ->
  (forall j, 0 <= j < 8 ->
     j <> TWSPI_SEL -> j <> TWSPI_CLK -> j <> TWSPI_SW ->
     Z.testbit (TWSPI_DDR (exec twspi_disable s)) j
     = Z.testbit (TWSPI_DDR s) j) /\
  TWSPI_PORT (exec twspi_disable s) = TWSPI_PORT s /\
  (0 <= TWSPI_DDR s < 256 ->
   Z.testbit (TWSPI_DDR s) TWSPI_SEL = false ->
   Z.testbit (TWSPI_DDR s) TWSPI_CLK = false ->
   Z.testbit (TWSPI_DDR s) TWSPI_SW = false ->
   TWSPI_DDR (exec twspi_disable (exec twspi_init s)) = TWSPI_DDR s).
Proof.
  intros Hsel Hclk Hsw. split; [|split].
  - intros j Hj H1 H2 H3. cbn. rewrite testbit_clear3 by lia.
    replace (j =? TWSPI_SEL) with false by (symmetry; now apply Z.eqb_neq).
    replace (j =? TWSPI_CLK) with false by (symmetry; now apply Z.eqb_neq).
    replace (j =? TWSPI_SW) with false by (symmetry; now apply Z.eqb_neq).
    now rewrite !andb_true_r.
  - reflexivity.
  - intros Hddr Bsel Bclk Bsw. cbn.
    apply byte_bits_inj; [apply u8_range | assumption |].
    intros j Hj. rewrite testbit_clear3, !testbit_set by lia.
    replace (j <? 8) with true by (symmetry; apply Z.ltb_lt; lia).
    destruct (Z.eqb_spec j TWSPI_SEL) as [->|];
      [rewrite Bsel; now destruct (TWSPI_SEL =? TWSPI_CLK),
                                  (TWSPI_SEL =? TWSPI_SW)|].
    destruct (Z.eqb_spec j TWSPI_CLK) as [->|];
      [rewrite Bclk; now destruct (TWSPI_CLK =? TWSPI_SW)|].
    destruct (Z.eqb_spec j TWSPI_SW) as [->|]; [now rewrite Bsw|].
    now destruct (Z.testbit (TWSPI_DDR s) j).
Qed.

(** ** Queries *)

(** X3.  [rcs926_data_ready] returns the level it samples on the data-ready
    line.  Like [rcs926_rf_present] it reads the input register exactly
    once, stores to no register and does not wait, so two calls in a row
    look at two successive samples. *)
Theorem rcs926_queries_sample_once (s : state) :
  let pin := TWSPI_PIN s (reads s) in
  let d := exec rcs926_data_ready s in
  let f := exec rcs926_rf_present s in
  eval rcs926_data_ready s = Z.testbit pin TWSPI_IRQ /\
  (since s d = [Read pin] /\ reads d = S (reads s) /\
   TWSPI_DDR d = TWSPI_DDR s /\ TWSPI_PORT d = TWSPI_PORT s) /\
  (since s f = [Read pin] /\ reads f = S (reads s) /\
   TWSPI_DDR f = TWSPI_DDR s /\ TWSPI_PORT f = TWSPI_PORT s) /\
  eval rcs926_rf_present d
  = negb (Z.testbit (TWSPI_PIN s (S (reads s))) TWSPI_RFDET).
Proof.
  cbv zeta. split; [cbn; apply truthy_land_BV|].
  split; [|split].
  - repeat split. now apply since_app.
  - repeat split. now apply since_app.
  - cbn. apply land_BV_eqb_any.
Qed.

(** ** Wake-up sources, enabling *)

(** X4.  Enabling a wake-up source sets the shared enable bit of [PCICR] and
    the source's own bit of [PCMSK0] and changes no other bit of either
    register, so the other source stays as it was; the port is not
    touched. *)
Theorem rcs926_wake_up_enable (s : state) :
  0 <= PCIE0 < 8 -> 0 <= PCINT4 < 8 -> 0 <= PCINT5 < 8 ->
  let rf := exec (rcs926_wake_up_on_rf true) s in
  let irq := exec (rcs926_wake_up_on_irq true) s in
  (Z.testbit (PCICR rf) PCIE0 = true /\
   Z.testbit (PCMSK0 rf) PCINT5 = true /\
   (forall j, 0 <= j < 8 -> j <> PCIE0 ->
      Z.testbit (PCICR rf) j = Z.testbit (PCICR s) j) /\
   (forall j, 0 <= j < 8 -> j <> PCINT5 ->
      Z.testbit (PCMSK0 rf) j = Z.testbit (PCMSK0 s) j) /\
   TWSPI_DDR rf = TWSPI_DDR s /\ TWSPI_PORT rf = TWSPI_PORT s) /\
  (Z.testbit (PCICR irq) PCIE0 = true /\
   Z.testbit (PCMSK0 irq) PCINT4 = true /\
   (forall j, 0 <= j < 8 -> j <> PCIE0 ->
      Z.testbit (PCICR irq) j = Z.testbit (PCICR s) j) /\
   (forall j, 0 <= j < 8 -> j <> PCINT4 ->
      Z.testbit (PCMSK0 irq) j = Z.testbit (PCMSK0 s) j) /\
   TWSPI_DDR irq = TWSPI_DDR s /\ TWSPI_PORT irq = TWSPI_PORT s).
Proof.
  intros Hie H4 H5. cbn. repeat split;
    try (now apply testbit_set_same);
    intros j Hj Hne; apply testbit_set_other; lia.
Qed.

(** X5.  Enabling a source and disabling it again gives back the mask
    register it started from, when the source was off, but leaves the shared
    enable bit set: if that bit was clear before, [PCICR] is not restored.
    The order in which the two sources are enabled does not matter for the
    registers. *)
Theorem rcs926_wake_up_enable_disable (s : state) :
  0 <= PCIE0 < 8 -> 0 <= PCINT4 < 8 -> 0 <= PCINT5 < 8 ->
  0 <= PCMSK0 s < 256 ->
  Z.testbit (PCMSK0 s) PCINT5 = false ->
  let s2 := exec (rcs926_wake_up_on_rf true ;;
                  rcs926_wake_up_on_rf false) s in
  let rf_irq := exec (rcs926_wake_up_on_rf true ;;
                      rcs926_wake_up_on_irq true) s in
  let irq_rf := exec (rcs926_wake_up_on_irq true ;;
                      rcs926_wake_up_on_rf true) s in
  PCMSK0 s2 = PCMSK0 s /\
  Z.testbit (PCICR s2) PCIE0 = true /\
  (Z.testbit (PCICR s) PCIE0 = false -> PCICR s2 <> PCICR s) /\
  PCMSK0 rf_irq = PCMSK0 irq_rf /\ PCICR rf_irq = PCICR irq_rf.
Proof.
  intros Hie H4 H5 Hrange Hoff. cbn. split; [|split; [|split; [|split]]].
  - apply byte_bits_inj; [apply u8_range | assumption |].
    intros j Hj. destruct (Z.eqb_spec j PCINT5) as [->|Hne].
    + now rewrite testbit_clear_same, Hoff.
    + now rewrite testbit_clear_other, testbit_set_other by lia.
  - now apply testbit_set_same.
  - intros Hclear Heq. rewrite <- Heq, testbit_set_same in Hclear by lia.
    discriminate.
  - apply byte_bits_inj; try apply u8_range.
    intros j Hj. rewrite !testbit_set by lia.
    destruct (j <? 8), (Z.testbit (PCMSK0 s) j), (j =? PCINT4),
      (j =? PCINT5); reflexivity.
  - reflexivity.
Qed.

(** ** Power and the direction of the Data line *)

(** X6.  [rcs926_suspend] and [rcs926_resume] change no level but the power
    switch and no other register.  Suspending and resuming a chip that was
    powered gives back the port register as it was, 50 us later. *)
Theorem rcs926_power_frame (s : state) :
  0 <= TWSPI_SW < 8 ->
  let off := exec rcs926_suspend s in
  let on := exec rcs926_resume s in
  let back := exec (rcs926_suspend ;; rcs926_resume) s in
  (forall j, 0 <= j < 8 -> j <> TWSPI_SW ->
     Z.testbit (TWSPI_PORT off) j = Z.testbit (TWSPI_PORT s) j /\
     Z.testbit (TWSPI_PORT on) j = Z.testbit (TWSPI_PORT s) j) /\
  (TWSPI_DDR off = TWSPI_DDR s /\ TWSPI_DDR on = TWSPI_DDR s) /\
  (0 <= TWSPI_PORT s < 256 -> Z.testbit (TWSPI_PORT s) TWSPI_SW = true ->
   TWSPI_PORT back = TWSPI_PORT s /\ duration (since s back) = 50).
Proof.
  intros Hsw. cbn. split; [|split; [split; reflexivity|]].
  - intros j Hj Hne.
    now rewrite testbit_clear_other, testbit_set_other by lia.
  - intros Hrange Hon. split.
    + apply byte_bits_inj; [apply u8_range | assumption |].
      intros j Hj. destruct (Z.eqb_spec j TWSPI_SW) as [->|Hne].
      * now rewrite testbit_set_same, Hon by lia.
      * now rewrite testbit_set_other, testbit_clear_other by lia.
    + erewrite since_app; [|cbn; rewrite <- !app_assoc; reflexivity].
      reflexivity.
Qed.

(** X7.  On an idle bus, Data an input and Select high, [twspi_begin_send]
    followed by [twspi_end_send] gives back the direction register and the
    port register as they were, after 3 us of waiting. *)
Theorem twspi_begin_end_round_trip (s : state) :
  0 <= TWSPI_SEL < 8 -> 0 <= TWSPI_DATA < 8 ->
  0 <= TWSPI_DDR s < 256 -> 0 <= TWSPI_PORT s < 256 ->
  Z.testbit (TWSPI_DDR s) TWSPI_DATA = false ->
  Z.testbit (TWSPI_PORT s) TWSPI_SEL = true ->
  let s' := exec (twspi_begin_send ;; twspi_end_send) s in
  TWSPI_DDR s' = TWSPI_DDR s /\ TWSPI_PORT s' = TWSPI_PORT s /\
  duration (since s s') = 3.
Proof.
  intros Hsel Hdata Hddr Hport Hin Hhigh. cbn. split; [|split].
  - apply byte_bits_inj; [apply u8_range | assumption |].
    intros j Hj. destruct (Z.eqb_spec j TWSPI_DATA) as [->|Hne].
    + now rewrite testbit_clear_same, Hin.
    + now rewrite testbit_clear_other, testbit_set_other by lia.
  - apply byte_bits_inj; [apply u8_range | assumption |].
    intros j Hj. destruct (Z.eqb_spec j TWSPI_SEL) as [->|Hne].
    + now rewrite testbit_set_same, Hhigh by lia.
    + now rewrite testbit_set_other, testbit_clear_other by lia.
  - erewrite since_app; [|cbn; rewrite <- !app_assoc; reflexivity].
    reflexivity.
Qed.

(** ** What the byte loops store *)

Lemma port_stores_app (l1 l2 : list event) :
  port_stores (l1 ++ l2) = port_stores l1 ++ port_stores l2.
Proof.
  induction l1 as [|e l1 IH]; [reflexivity|].
  destruct e as [[] v| |]; cbn; now rewrite IH.
Qed.

Lemma since_duration (s s' : state) (tr : list event) :
  log s' = log s ++ tr -> duration (since s s') = duration tr.
Proof. intros H. now rewrite (since_app _ _ _ H). Qed.

(** What [twspi_send_loop] appends: three stores to the port per bit, each
    agreeing with the port it started from outside Clock and Data, and 2 us
    of waiting per bit. *)
Lemma twspi_send_loop_stores (i : nat) : forall (c : Z) (s : state),
  0 <= TWSPI_CLK < 8 -> 0 <= TWSPI_DATA < 8 ->
  exists tr,
    log (exec (twspi_send_loop i c) s) = log s ++ tr /\
    duration tr = 2 * Z.of_nat i /\
    length (port_stores tr) = (3 * i)%nat /\
    Forall (fun p => forall j, 0 <= j < 8 ->
                       j <> TWSPI_CLK -> j <> TWSPI_DATA ->
                       Z.testbit p j = Z.testbit (TWSPI_PORT s) j)
           (port_stores tr).
Proof.
  induction i as [|i IH]; intros c s Hclk Hdata.
  - exists []. cbn. rewrite app_nil_r. auto.
  - rewrite twspi_send_loop_S.
    destruct (IH (u8 (Z.shiftl c 1)) (send_bit_state (Z.testbit c 7) s)
                Hclk Hdata) as (tr & Hlog & Hdur & Hlen & Hall).
    exists (send_bit_events (Z.testbit c 7) (TWSPI_PORT s) ++ tr).
    assert (Hlow : forall j, 0 <= j < 8 -> j <> TWSPI_CLK ->
              Z.testbit (clk_low (TWSPI_PORT s)) j
              = Z.testbit (TWSPI_PORT s) j)
      by (intros; apply testbit_clear_other; lia).
    assert (Hput : forall j, 0 <= j < 8 -> j <> TWSPI_CLK -> j <> TWSPI_DATA ->
              Z.testbit (data_put (Z.testbit c 7) (clk_low (TWSPI_PORT s))) j
              = Z.testbit (TWSPI_PORT s) j).
    { intros j Hj H1 H2. rewrite <- Hlow by assumption. unfold data_put.
      destruct (Z.testbit c 7);
        [apply testbit_set_other | apply testbit_clear_other]; lia. }
    assert (Hhigh : forall j, 0 <= j < 8 -> j <> TWSPI_CLK -> j <> TWSPI_DATA ->
              Z.testbit (clk_high (data_put (Z.testbit c 7)
                                            (clk_low (TWSPI_PORT s)))) j
              = Z.testbit (TWSPI_PORT s) j).
    { intros j Hj H1 H2. rewrite <- Hput by assumption.
      apply testbit_set_other; lia. }
    split; [|split; [|split]].
    + rewrite Hlog. cbn [send_bit_state log]. now rewrite app_assoc.
    + rewrite duration_app, Hdur. cbn [send_bit_events duration]. lia.
    + rewrite port_stores_app, length_app, Hlen. cbn. lia.
    + rewrite port_stores_app. apply Forall_app. split.
      * cbn. repeat constructor; auto.
      * eapply Forall_impl; [|exact Hall]. cbv beta.
        intros p Hp j Hj H1 H2. rewrite Hp by assumption.
        now apply Hhigh.
Qed.

Lemma twspi_get_loop_stores (n : nat) : forall (data : Z) (s : state),
  0 <= TWSPI_CLK < 8 ->
  exists tr,
    log (exec (twspi_get_loop n data) s) = log s ++ tr /\
    duration tr = 2 * Z.of_nat n /\
    length (port_stores tr) = (2 * n)%nat /\
    Forall (fun p => forall j, 0 <= j < 8 -> j <> TWSPI_CLK ->
                       Z.testbit p j = Z.testbit (TWSPI_PORT s) j)
           (port_stores tr).
Proof.
  induction n as [|n IH]; intros data s Hclk.
  - exists []. cbn. rewrite app_nil_r. auto.
  - unfold exec. rewrite twspi_get_loop_S.
    destruct (IH (shift_in data
                    (Z.testbit (TWSPI_PIN s (reads s)) TWSPI_DATA))
                 (get_bit_state s) Hclk) as (tr & Hlog & Hdur & Hlen & Hall).
    unfold exec in Hlog.
    exists (get_bit_events (TWSPI_PIN s (reads s)) (TWSPI_PORT s) ++ tr).
    assert (Hlow : forall j, 0 <= j < 8 -> j <> TWSPI_CLK ->
              Z.testbit (clk_low (TWSPI_PORT s)) j
              = Z.testbit (TWSPI_PORT s) j)
      by (intros; apply testbit_clear_other; lia).
    assert (Hhigh : forall j, 0 <= j < 8 -> j <> TWSPI_CLK ->
              Z.testbit (clk_high (clk_low (TWSPI_PORT s))) j
              = Z.testbit (TWSPI_PORT s) j).
    { intros j Hj H1. rewrite <- Hlow by assumption.
      apply testbit_set_other; lia. }
    split; [|split; [|split]].
    + rewrite Hlog. cbn [get_bit_state log]. now rewrite app_assoc.
    + rewrite duration_app, Hdur. cbn [get_bit_events duration]. lia.
    + rewrite port_stores_app, length_app, Hlen. cbn. lia.
    + rewrite port_stores_app. apply Forall_app. split.
      * cbn. repeat constructor; auto.
      * eapply Forall_impl; [|exact Hall]. cbv beta.
        intros p Hp j Hj H1. rewrite Hp by assumption. now apply Hhigh.
Qed.

(** X8.  Every value [twspi_send] stores to the port, the intermediate ones
    included, has the bits the port had before on all lines but Clock and
    Data, and every value [twspi_get] stores on all lines but Clock: no
    store in the middle of a byte moves Select, the power switch or, when
    receiving, the Data latch.  A byte sent is 24 stores, a byte received
    16. *)
Theorem twspi_byte_stores_frame (c : Z) (s : state) :
  0 <= TWSPI_CLK < 8 -> 0 <= TWSPI_DATA < 8 ->
  (length (port_stores (since s (exec (twspi_send c) s))) = 24%nat /\
   Forall (fun p => forall j, 0 <= j < 8 ->
                      j <> TWSPI_CLK -> j <> TWSPI_DATA ->
                      Z.testbit p j = Z.testbit (TWSPI_PORT s) j)
          (port_stores (since s (exec (twspi_send c) s)))) /\
  (length (port_stores (since s (exec twspi_get s))) = 16%nat /\
   Forall (fun p => forall j, 0 <= j < 8 -> j <> TWSPI_CLK ->
                      Z.testbit p j = Z.testbit (TWSPI_PORT s) j)
          (port_stores (since s (exec twspi_get s)))).
Proof.
  intros Hclk Hdata.
  destruct (twspi_send_loop_stores 8 c s Hclk Hdata)
    as (tr1 & Hlog1 & _ & Hlen1 & Hall1).
  destruct (twspi_get_loop_stores 8 0 s Hclk)
    as (tr2 & Hlog2 & _ & Hlen2 & Hall2).
  unfold twspi_send, twspi_get.
  rewrite (since_app _ _ _ Hlog1), (since_app _ _ _ Hlog2). auto.
Qed.

(** ** Time on the bus *)

Lemma twspi_send_loop_ext (i : nat) : forall (c : Z) (s : state),
  exists tr,
    log (exec (twspi_send_loop i c) s) = log s ++ tr /\
    duration tr = 2 * Z.of_nat i.
Proof.
  induction i as [|i IH]; intros c s.
  - exists []. cbn. now rewrite app_nil_r.
  - rewrite twspi_send_loop_S.
    destruct (IH (u8 (Z.shiftl c 1)) (send_bit_state (Z.testbit c 7) s))
      as (tr & Hlog & Hdur).
    exists (send_bit_events (Z.testbit c 7) (TWSPI_PORT s) ++ tr). split.
    + rewrite Hlog. cbn [send_bit_state log]. now rewrite app_assoc.
    + rewrite duration_app, Hdur. cbn [send_bit_events duration]. lia.
Qed.

Lemma twspi_get_loop_ext (n : nat) : forall (data : Z) (s : state),
  exists tr,
    log (exec (twspi_get_loop n data) s) = log s ++ tr /\
    duration tr = 2 * Z.of_nat n.
Proof.
  induction n as [|n IH]; intros data s.
  - exists []. cbn. now rewrite app_nil_r.
  - unfold exec. rewrite twspi_get_loop_S.
    destruct (IH (shift_in data
                    (Z.testbit (TWSPI_PIN s (reads s)) TWSPI_DATA))
                 (get_bit_state s)) as (tr & Hlog & Hdur).
    unfold exec in Hlog.
    exists (get_bit_events (TWSPI_PIN s (reads s)) (TWSPI_PORT s) ++ tr).
    split.
    + rewrite Hlog. cbn [get_bit_state log]. now rewrite app_assoc.
    + rewrite duration_app, Hdur. cbn [get_bit_events duration]. lia.
Qed.

Lemma send_byte_ext (s : state) (c : Z) :
  exists tr, log (send_byte s c) = log s ++ tr /\ duration tr = 16.
Proof. apply (twspi_send_loop_ext 8 c s). Qed.

Lemma twspi_get_ext (s : state) :
  exists tr, log (exec twspi_get s) = log s ++ tr /\ duration tr = 16.
Proof. apply (twspi_get_loop_ext 8 0 s). Qed.

Lemma get_to_ext (s : state) (a : Z) :
  exists tr, log (get_to s a) = log s ++ tr /\ duration tr = 16.
Proof. rewrite get_to_eq, store_log. apply twspi_get_ext. Qed.

Lemma send_fold_ext (bs : list Z) : forall s,
  exists tr,
    log (fold_left send_byte bs s) = log s ++ tr /\
    duration tr = 16 * Z.of_nat (length bs).
Proof.
  induction bs as [|c bs IH]; intros s.
  - exists []. cbn. now rewrite app_nil_r.
  - rewrite fold_left_cons.
    destruct (send_byte_ext s c) as (tr1 & Hlog1 & Hdur1).
    destruct (IH (send_byte s c)) as (tr2 & Hlog2 & Hdur2).
    exists (tr1 ++ tr2). split.
    + now rewrite Hlog2, Hlog1, app_assoc.
    + rewrite duration_app, Hdur1, Hdur2. cbn [length]. lia.
Qed.

Lemma get_fold_ext (l : list Z) : forall s,
  exists tr,
    log (fold_left get_to l s) = log s ++ tr /\
    duration tr = 16 * Z.of_nat (length l).
Proof.
  induction l as [|a l IH]; intros s.
  - exists []. cbn. now rewrite app_nil_r.
  - rewrite fold_left_cons.
    destruct (get_to_ext s a) as (tr1 & Hlog1 & Hdur1).
    destruct (IH (get_to s a)) as (tr2 & Hlog2 & Hdur2).
    exists (tr1 ++ tr2). split.
    + now rewrite Hlog2, Hlog1, app_assoc.
    + rewrite duration_app, Hdur1, Hdur2. cbn [length]. lia.
Qed.

(** X9.  A byte takes 16 us of busy-waiting in either direction, 2 us per
    bit, and a buffer transfer 16 us per byte: [16 * len] us for a length
    from 1 to 255, and 4096 us for the length 0, which runs 256 times. *)
Theorem twspi_transfer_time (buf len c : Z) (s : state) :
  0 <= len < 256 ->
  duration (since s (exec (twspi_send c) s)) = 16 /\
  duration (since s (exec twspi_get s)) = 16 /\
  (exists t, twspi_send_buf buf len s = Some t /\
             duration (since s t) = 16 * Z.of_nat (iterations len)) /\
  (exists g, twspi_get_buf buf len s = Some g /\
             duration (since s g) = 16 * Z.of_nat (iterations len)).
Proof.
  intros Hlen. split; [|split; [|split]].
  - destruct (send_byte_ext s c) as (tr & Hlog & Hdur).
    unfold send_byte in Hlog. now rewrite (since_duration _ _ _ Hlog).
  - destruct (twspi_get_ext s) as (tr & Hlog & Hdur).
    now rewrite (since_duration _ _ _ Hlog).
  - rewrite twspi_send_buf_iterations by assumption. fold (iterations len).
    rewrite send_fold_bytes. eexists. split; [reflexivity|].
    destruct (send_fold_ext (map (ram s) (addrs buf (iterations len))) s)
      as (tr & Hlog & Hdur).
    rewrite (since_duration _ _ _ Hlog), Hdur, length_map, addrs_length.
    reflexivity.
  - rewrite twspi_get_buf_iterations by assumption. fold (iterations len).
    eexists. split; [reflexivity|].
    destruct (get_fold_ext (addrs buf (iterations len)) s)
      as (tr & Hlog & Hdur).
    rewrite (since_duration _ _ _ Hlog), Hdur, addrs_length. reflexivity.
Qed.

(** ** Memory *)

Lemma send_fold_frame (bs : list Z) : forall s,
  ram (fold_left send_byte bs s) = ram s /\
  reads (fold_left send_byte bs s) = reads s /\
  TWSPI_DDR (fold_left send_byte bs s) = TWSPI_DDR s.
Proof.
  induction bs as [|c bs IH]; intros s; [cbn; auto|].
  rewrite fold_left_cons.
  destruct (IH (send_byte s c)) as (H1 & H2 & H3).
  destruct (twspi_send_loop_frame 8 c s) as (D & _ & _ & _ & R & M).
  fold (twspi_send c) in D, R, M. fold (send_byte s c) in D, R, M.
  rewrite H1, H2, H3. auto.
Qed.

(** X10.  [twspi_get_buf] writes memory only at the addresses [buf] to
    [buf + n - 1] for the [n] bytes it receives, [n = 256] for the length 0;
    [twspi_send_buf] writes no memory and reads no input. *)
Theorem twspi_buf_memory_frame (buf len : Z) (s : state) :
  0 <= len < 256 ->
  (exists g, twspi_get_buf buf len s = Some g /\
     forall a, a < buf \/ buf + Z.of_nat (iterations len) <= a ->
               ram g a = ram s a) /\
  (exists t, twspi_send_buf buf len s = Some t /\
             ram t = ram s /\ reads t = reads s).
Proof.
  intros Hlen. split.
  - rewrite twspi_get_buf_iterations by assumption. fold (iterations len).
    eexists. split; [reflexivity|].
    apply (get_fold_spec (iterations len) buf s).
  - rewrite twspi_send_buf_iterations by assumption. fold (iterations len).
    rewrite send_fold_bytes. eexists. split; [reflexivity|].
    destruct (send_fold_frame (map (ram s) (addrs buf (iterations len))) s)
      as (H1 & H2 & _). auto.
Qed.

(** ** Sending from program memory *)

Lemma twspi_send_buf_p_loop_S (fuel : nat) (buf len : Z) (s : state) :
  twspi_send_buf_p_loop (S fuel) buf len s
  = if truthy (u8 (len - 1))
    then twspi_send_buf_p_loop fuel (buf + 1) (u8 (len - 1)) (send_at_p s buf)
    else Some (send_at_p s buf).
Proof. reflexivity. Qed.

Lemma twspi_send_buf_p_loop_run (m : nat) :
  forall (fuel : nat) (buf len : Z) s,
  u8 (len - 1) = Z.of_nat m -> (m < fuel)%nat ->
  twspi_send_buf_p_loop fuel buf len s
  = Some (fold_left send_at_p (addrs buf (S m)) s).
Proof.
  induction m as [|m IH]; intros fuel buf len s Hlen Hfuel;
    (destruct fuel as [|fuel]; [lia|]);
    rewrite twspi_send_buf_p_loop_S, Hlen, truthy_of_nat, addrs_S.
  - now rewrite fold_left_addrs_1.
  - rewrite fold_left_cons. apply IH; [|lia]. pose proof (u8_range (len - 1)).
    replace (Z.of_nat m) with (Z.of_nat (S m) - 1) by lia.
    apply u8_small. lia.
Qed.

Lemma send_at_p_eq (s : state) (a : Z) :
  send_at_p s a = send_byte s (pgm_read_byte a).
Proof. reflexivity. Qed.

Lemma send_fold_p_bytes (l : list Z) : forall s,
  fold_left send_at_p l s = fold_left send_byte (map pgm_read_byte l) s.
Proof.
  induction l as [|a l IH]; intros s; [reflexivity|].
  cbn [map]. now rewrite !fold_left_cons, IH, send_at_p_eq.
Qed.

Lemma iterations_pred (len : Z) :
  0 <= len < 256 -> iterations len = S (Z.to_nat (u8 (len - 1))).
Proof.
  intros Hlen. unfold iterations.
  destruct (Z.eqb_spec len 0) as [->|Hne]; [reflexivity|].
  rewrite u8_small by lia. lia.
Qed.

(** X11.  [twspi_send_buf_p] always returns, and what it sends are the
    bytes of program memory at [buf], [buf + 1], ... in that order, once
    each: [len] of them for a length from 1 to 255 and 256 of them for the
    length 0.  Data memory is neither read nor written. *)
Theorem twspi_send_buf_p_in_order (buf len : Z) (s : state) :
  0 <= len < 256 ->
  twspi_send_buf_p buf len s
  = Some (fold_left send_byte
            (map pgm_read_byte (addrs buf (iterations len))) s) /\
  length (map pgm_read_byte (addrs buf (iterations len)))
  = iterations len /\
  ram (fold_left send_byte
         (map pgm_read_byte (addrs buf (iterations len))) s) = ram s.
Proof.
  intros Hlen. split; [|split].
  - unfold twspi_send_buf_p.
    rewrite (twspi_send_buf_p_loop_run (Z.to_nat (u8 (len - 1))));
      pose proof (u8_range (len - 1)); [|lia|lia].
    now rewrite <- iterations_pred, send_fold_p_bytes.
  - now rewrite length_map, addrs_length.
  - apply send_fold_frame.
Qed.

(** X12.  When data memory at [rbuf] holds the same bytes as program memory
    at [pbuf], [twspi_send_buf_p] on [pbuf] and [twspi_send_buf] on [rbuf]
    end in the same state, for every length, the length 0 included. *)
Theorem twspi_send_buf_p_agrees (pbuf rbuf len : Z) (s : state) :
  0 <= len < 256 ->
  map pgm_read_byte (addrs pbuf (iterations len))
  = map (ram s) (addrs rbuf (iterations len)) ->
  twspi_send_buf_p pbuf len s = twspi_send_buf rbuf len s.
Proof.
  intros Hlen Hsame.
  rewrite twspi_send_buf_iterations by assumption. fold (iterations len).
  rewrite send_fold_bytes, <- Hsame. unfold twspi_send_buf_p.
  rewrite (twspi_send_buf_p_loop_run (Z.to_nat (u8 (len - 1))));
    pose proof (u8_range (len - 1)); [|lia|lia].
  now rewrite <- iterations_pred, send_fold_p_bytes.
Qed.

(** ** Splitting a transfer *)

Lemma addrs_app (buf : Z) (n m : nat) :
  addrs buf (n + m) = addrs buf n ++ addrs (buf + Z.of_nat n) m.
Proof.
  revert buf. induction n as [|n IH]; intros buf.
  - cbn [Nat.add]. change (addrs buf 0) with (@nil Z).
    now rewrite Z.add_0_r.
  - cbn [Nat.add]. rewrite !addrs_S, IH. cbn [app]. do 3 f_equal. lia.
Qed.

Lemma iterations_of_nat (n : nat) :
  (1 <= n <= 255)%nat -> iterations (Z.of_nat n) = n.
Proof.
  intros Hn. unfold iterations.
  replace (Z.of_nat n =? 0) with false by (symmetry; apply Z.eqb_neq; lia).
  apply Nat2Z.id.
Qed.

(** X13.  A buffer transfer can be split: sending (receiving) [n] bytes at
    [buf] and then [m] bytes at [buf + n] ends in the same state as sending
    (receiving) [n + m] bytes at [buf] in one call, as long as [n + m] still
    is a [uint8_t] length. *)
Theorem twspi_buf_split (buf : Z) (n m : nat) (s : state) :
  (1 <= n)%nat -> (1 <= m)%nat -> (n + m <= 255)%nat ->
  (exists s1, twspi_send_buf buf (Z.of_nat n) s = Some s1 /\
     twspi_send_buf (buf + Z.of_nat n) (Z.of_nat m) s1
     = twspi_send_buf buf (Z.of_nat (n + m)) s) /\
  (exists s1, twspi_get_buf buf (Z.of_nat n) s = Some s1 /\
     twspi_get_buf (buf + Z.of_nat n) (Z.of_nat m) s1
     = twspi_get_buf buf (Z.of_nat (n + m)) s).
Proof.
  intros Hn Hm Hnm. split.
  - rewrite !twspi_send_buf_iterations by lia. fold (iterations (Z.of_nat n)).
    fold (iterations (Z.of_nat (n + m))). eexists. split; [reflexivity|].
    rewrite twspi_send_buf_iterations by lia. fold (iterations (Z.of_nat m)).
    rewrite !iterations_of_nat by lia.
    now rewrite addrs_app, fold_left_app.
  - rewrite !twspi_get_buf_iterations by lia. fold (iterations (Z.of_nat n)).
    fold (iterations (Z.of_nat (n + m))). eexists. split; [reflexivity|].
    rewrite twspi_get_buf_iterations by lia. fold (iterations (Z.of_nat m)).
    rewrite !iterations_of_nat by lia.
    now rewrite addrs_app, fold_left_app.
Qed.

(** ** Receiving what was sent *)

Lemma bits_msb_u8 (v : Z) : bits_msb (u8 v) = bits_msb v.
Proof.
  unfold bits_msb. apply map_ext_in. intros i Hi. apply in_seq in Hi.
  apply testbit_u8_low. lia.
Qed.

Lemma data_at_clk_high_cycles (l : list bool) :
  data_at_clk_high (flat_map bit_cycle l) = l.
Proof.
  induction l as [|b l IH]; [reflexivity|].
  cbn [flat_map]. unfold data_at_clk_high in *.
  rewrite flat_map_app, IH. reflexivity.
Qed.

(** X14.  Sending and receiving are inverse to each other: if the Data
    levels a receiver samples are the levels [twspi_send v] holds on Data
    while Clock is high, [twspi_get] returns [v] (its low eight bits). *)
Theorem twspi_send_get_loopback (v : Z) (s r : state) :
  0 <= TWSPI_CLK < 8 -> 0 <= TWSPI_DATA < 8 -> TWSPI_CLK <> TWSPI_DATA ->
  data_levels r 0 8
  = data_at_clk_high
      (map clk_data (waveform (TWSPI_PORT s)
                              (since s (exec (twspi_send v) s)))) ->
  eval twspi_get r = u8 v.
Proof.
  intros Hclk Hdata Hne Hsame.
  destruct (twspi_send_loop_log Hclk Hdata Hne 8 v s)
    as (tr & Hlog & _ & Hwave & _).
  unfold twspi_send in Hsame.
  rewrite (since_app _ _ _ Hlog), Hwave in Hsame.
  fold (bits_msb v) in Hsame. rewrite data_at_clk_high_cycles in Hsame.
  destruct (twspi_get_byte r) as [Hrange Hbits].
  apply bits_msb_inj; [assumption | apply u8_range |].
  now rewrite Hbits, Hsame, bits_msb_u8.
Qed.

Lemma data_levels_chunks (s : state) (n : nat) :
  data_levels s 0 (8 * n)
  = flat_map (fun k => data_levels s (8 * k) 8) (seq 0 n).
Proof.
  induction n as [|n IH]; [reflexivity|].
  replace (8 * S n)%nat with (8 * n + 8)%nat by lia.
  rewrite seq_S, flat_map_app. cbn [flat_map Nat.add]. rewrite app_nil_r, <- IH.
  unfold data_levels. rewrite seq_app, map_app. f_equal.
  cbn [Nat.add]. rewrite map_seq_from. apply map_ext. intros i.
  do 2 f_equal. lia.
Qed.

Lemma flat_map_flat_map {A B C : Type} (f : B -> list C) (g : A -> list B)
      (l : list A) :
  flat_map f (flat_map g l) = flat_map (fun x => flat_map f (g x)) l.
Proof.
  induction l as [|x l IH]; [reflexivity|].
  cbn [flat_map]. now rewrite flat_map_app, IH.
Qed.

Lemma flat_map_map {A B C : Type} (f : B -> list C) (g : A -> B)
      (l : list A) :
  flat_map f (map g l) = flat_map (fun x => f (g x)) l.
Proof.
  induction l as [|x l IH]; [reflexivity|]. cbn. now rewrite IH.
Qed.

Lemma flat_map_ext_seq {A : Type} (f g : nat -> list A) (n : nat) :
  (forall k, (k < n)%nat -> f k = g k) ->
  flat_map f (seq 0 n) = flat_map g (seq 0 n).
Proof.
  intros H. rewrite !flat_map_concat_map. f_equal.
  apply map_ext_in. intros k Hk. apply in_seq in Hk. apply H. lia.
Qed.

(** X15.  A buffer received with [twspi_get_buf] and sent back with
    [twspi_send_buf] puts on Data, bit for bit and in order, the levels
    that were sampled while receiving. *)
Theorem twspi_get_send_echo (buf : Z) (n : nat) (s : state) :
  0 <= TWSPI_CLK < 8 -> 0 <= TWSPI_DATA < 8 -> TWSPI_CLK <> TWSPI_DATA ->
  (1 <= n <= 255)%nat ->
  exists g t,
    twspi_get_buf buf (Z.of_nat n) s = Some g /\
    twspi_send_buf buf (Z.of_nat n) g = Some t /\
    map clk_data (waveform (TWSPI_PORT g) (since g t))
    = flat_map bit_cycle (data_levels s 0 (8 * n)).
Proof.
  intros Hclk Hdata Hne Hn.
  exists (fold_left get_to (addrs buf n) s).
  exists (fold_left send_byte
            (map (ram (fold_left get_to (addrs buf n) s)) (addrs buf n))
            (fold_left get_to (addrs buf n) s)).
  split; [|split].
  - rewrite twspi_get_buf_iterations by lia. fold (iterations (Z.of_nat n)).
    now rewrite iterations_of_nat.
  - rewrite twspi_send_buf_iterations by lia. fold (iterations (Z.of_nat n)).
    now rewrite iterations_of_nat, send_fold_bytes.
  - destruct (send_fold_log
                (map (ram (fold_left get_to (addrs buf n) s)) (addrs buf n))
                (fold_left get_to (addrs buf n) s) Hclk Hdata Hne)
      as (tr & Hlog & _ & Hwave).
    rewrite (since_app _ _ _ Hlog), Hwave, data_levels_chunks.
    unfold byte_cycles, addrs.
    rewrite flat_map_flat_map, map_map, flat_map_map.
    apply flat_map_ext_seq. intros k Hk. f_equal.
    apply (get_fold_spec n buf s). assumption.
Qed.

(** ** A complete send transaction *)

Lemma twspi_begin_send_spec (s : state) :
  TWSPI_DDR (exec twspi_begin_send s) = u8 (Z.lor (TWSPI_DDR s) (_BV TWSPI_DATA)) /\
  TWSPI_PORT (exec twspi_begin_send s)
  = u8 (Z.land (TWSPI_PORT s) (Z.lnot (_BV TWSPI_SEL))) /\
  ram (exec twspi_begin_send s) = ram s /\
  exists tr, log (exec twspi_begin_send s) = log s ++ tr /\ duration tr = 1.
Proof.
  repeat split. eexists. split; [cbn; now rewrite <- !app_assoc|reflexivity].
Qed.

Lemma twspi_end_send_spec (s : state) :
  TWSPI_DDR (exec twspi_end_send s)
  = u8 (Z.land (TWSPI_DDR s) (Z.lnot (_BV TWSPI_DATA))) /\
  TWSPI_PORT (exec twspi_end_send s) = u8 (Z.lor (TWSPI_PORT s) (_BV TWSPI_SEL)) /\
  exists tr, log (exec twspi_end_send s) = log s ++ tr /\ duration tr = 2.
Proof.
  repeat split. eexists. split; [cbn; now rewrite <- !app_assoc|reflexivity].
Qed.

Lemma send_fold_port (bs : list Z) : forall (s : state) (j : Z),
  0 <= TWSPI_CLK < 8 -> 0 <= TWSPI_DATA < 8 -> TWSPI_CLK <> TWSPI_DATA ->
  0 <= j < 8 -> j <> TWSPI_CLK -> j <> TWSPI_DATA ->
  Z.testbit (TWSPI_PORT (fold_left send_byte bs s)) j
  = Z.testbit (TWSPI_PORT s) j.
Proof.
  induction bs as [|c bs IH]; intros s j Hclk Hdata Hne Hj H1 H2;
    [reflexivity|].
  rewrite fold_left_cons, IH by assumption.
  apply (twspi_send_loop_port Hclk Hdata Hne 8 c s); assumption.
Qed.

(** X16.  A whole transaction on a bus whose Data line is an input:
    [twspi_begin_send], [twspi_send_buf] of the non-empty [bs] stored at
    [buf], [twspi_end_send].  After the last byte Data is still an output
    and Select still low; between begin and end the bus carries the bytes of
    [bs] in order; at the end the direction register is what it was before
    the transaction, Select is high, and the busy-waiting adds up to
    [3 + 16 * length bs] us. *)
Theorem twspi_send_transaction (bs : list Z) (buf : Z) (s : state) :
  0 <= TWSPI_SEL < 8 -> 0 <= TWSPI_CLK < 8 -> 0 <= TWSPI_DATA < 8 ->
  TWSPI_SEL <> TWSPI_CLK -> TWSPI_SEL <> TWSPI_DATA ->
  TWSPI_CLK <> TWSPI_DATA ->
  bs <> [] -> (length bs <= 255)%nat ->
  map (ram s) (addrs buf (length bs)) = bs ->
  0 <= TWSPI_DDR s < 256 -> Z.testbit (TWSPI_DDR s) TWSPI_DATA = false ->
  exists s2,
    twspi_send_buf buf (Z.of_nat (length bs)) (exec twspi_begin_send s)
    = Some s2 /\
    (Z.testbit (TWSPI_DDR s2) TWSPI_DATA = true /\
     Z.testbit (TWSPI_PORT s2) TWSPI_SEL = false) /\
    map clk_data (waveform (TWSPI_PORT (exec twspi_begin_send s))
                           (since (exec twspi_begin_send s) s2))
    = flat_map byte_cycles bs /\
    TWSPI_DDR (exec twspi_end_send s2) = TWSPI_DDR s /\
    Z.testbit (TWSPI_PORT (exec twspi_end_send s2)) TWSPI_SEL = true /\
    duration (since s (exec twspi_end_send s2))
    = 3 + 16 * Z.of_nat (length bs).
Proof.
  intros Hsel Hclk Hdata Hsc Hsd Hcd Hbs Hlen Hram Hddr Hin.
  destruct (twspi_begin_send_spec s) as (Bddr & Bport & Bram & tb & Blog & Bdur).
  remember (exec twspi_begin_send s) as s1 eqn:Es1.
  exists (fold_left send_byte bs s1).
  destruct (send_fold_frame bs s1) as (_ & _ & Fddr).
  destruct (twspi_end_send_spec (fold_left send_byte bs s1))
    as (Eddr & Eport & te & Elog & Edur).
  destruct (send_fold_ext bs s1) as (tf & Flog & Fdur).
  split; [|split; [split|split; [|split; [|split]]]].
  - rewrite twspi_send_buf_iterations by lia. fold (iterations (Z.of_nat (length bs))).
    assert (Hpos : length bs <> O) by (destruct bs; [congruence | discriminate]).
    now rewrite iterations_of_nat, send_fold_bytes, Bram, Hram by lia.
  - rewrite Fddr, Bddr. now apply testbit_set_same.
  - rewrite send_fold_port, Bport by (assumption || lia).
    apply testbit_clear_same.
  - destruct (send_fold_log bs s1 Hclk Hdata Hcd) as (tr & Hlog & _ & Hwave).
    now rewrite (since_app _ _ _ Hlog).
  - rewrite Eddr, Fddr, Bddr.
    apply byte_bits_inj; [apply u8_range | assumption |].
    intros j Hj. destruct (Z.eqb_spec j TWSPI_DATA) as [->|Hne].
    + now rewrite testbit_clear_same, Hin.
    + now rewrite testbit_clear_other, testbit_set_other by lia.
  - rewrite Eport. now apply testbit_set_same.
  - rewrite (since_duration s _ (tb ++ tf ++ te)).
    + rewrite !duration_app, Bdur, Fdur, Edur. lia.
    + now rewrite Elog, Flog, Blog, <- !app_assoc.
Qed.

(** ** Edges and samples *)

Lemma port_at_reads_app (p : Z) (l1 l2 : list event) :
  port_at_reads p (l1 ++ l2)
  = port_at_reads p l1 ++ port_at_reads (port_after p l1) l2.
Proof.
  revert p. induction l1 as [|e l1 IH]; intros p; [reflexivity|].
  destruct e as [[] v| |]; cbn; now rewrite IH.
Qed.

Lemma port_steps_app (p : Z) (l1 l2 : list event) :
  port_steps p (l1 ++ l2)
  = port_steps p l1 ++ port_steps (port_after p l1) l2.
Proof.
  revert p. induction l1 as [|e l1 IH]; intros p; [reflexivity|].
  destruct e as [[] v| |]; cbn; now rewrite IH.
Qed.

Lemma twspi_get_loop_samples (n : nat) : forall (data : Z) (s : state),
  exists tr,
    log (exec (twspi_get_loop n data) s) = log s ++ tr /\
    port_after (TWSPI_PORT s) tr = TWSPI_PORT (exec (twspi_get_loop n data) s) /\
    length (port_at_reads (TWSPI_PORT s) tr) = n /\
    Forall (fun p => Z.testbit p TWSPI_CLK = false)
           (port_at_reads (TWSPI_PORT s) tr).
Proof.
  induction n as [|n IH]; intros data s.
  - exists []. cbn. rewrite app_nil_r. auto.
  - unfold exec. rewrite twspi_get_loop_S.
    destruct (IH (shift_in data
                    (Z.testbit (TWSPI_PIN s (reads s)) TWSPI_DATA))
                 (get_bit_state s)) as (tr & Hlog & Hport & Hlen & Hall).
    unfold exec in Hlog, Hport.
    exists (get_bit_events (TWSPI_PIN s (reads s)) (TWSPI_PORT s) ++ tr).
    assert (Hp : port_after (TWSPI_PORT s)
                   (get_bit_events (TWSPI_PIN s (reads s)) (TWSPI_PORT s))
                 = TWSPI_PORT (get_bit_state s)) by reflexivity.
    split; [|split; [|split]].
    + rewrite Hlog. cbn [get_bit_state log]. now rewrite app_assoc.
    + now rewrite port_after_app, Hp.
    + rewrite port_at_reads_app, length_app, Hp, Hlen. reflexivity.
    + rewrite port_at_reads_app, Hp. apply Forall_app. split; [|assumption].
      cbn. repeat constructor. apply testbit_clear_same.
Qed.

(** X17.  [twspi_get] takes each of its eight samples while Clock is low:
    at every read of the input register the Clock level the driver last
    stored is low. *)
Theorem twspi_get_samples_clock_low (s : state) :
  length (port_at_reads (TWSPI_PORT s) (since s (exec twspi_get s))) = 8%nat /\
  Forall (fun p => Z.testbit p TWSPI_CLK = false)
         (port_at_reads (TWSPI_PORT s) (since s (exec twspi_get s))).
Proof.
  destruct (twspi_get_loop_samples 8 0 s) as (tr & Hlog & _ & Hlen & Hall).
  unfold twspi_get. rewrite (since_app _ _ _ Hlog). split; assumption.
Qed.

Lemma twspi_send_loop_steps (i : nat) : forall (c : Z) (s : state),
  0 <= TWSPI_CLK < 8 -> 0 <= TWSPI_DATA < 8 -> TWSPI_CLK <> TWSPI_DATA ->
  exists tr,
    log (exec (twspi_send_loop i c) s) = log s ++ tr /\
    port_after (TWSPI_PORT s) tr = TWSPI_PORT (exec (twspi_send_loop i c) s) /\
    Forall (fun st : Z * Z =>
              Z.testbit (fst st) TWSPI_DATA <> Z.testbit (snd st) TWSPI_DATA ->
              Z.testbit (fst st) TWSPI_CLK = false /\
              Z.testbit (snd st) TWSPI_CLK = false)
           (port_steps (TWSPI_PORT s) tr).
Proof.
  induction i as [|i IH]; intros c s Hclk Hdata Hne.
  - exists []. cbn. rewrite app_nil_r. auto.
  - rewrite twspi_send_loop_S.
    destruct (IH (u8 (Z.shiftl c 1)) (send_bit_state (Z.testbit c 7) s)
                Hclk Hdata Hne) as (tr & Hlog & Hport & Hall).
    exists (send_bit_events (Z.testbit c 7) (TWSPI_PORT s) ++ tr).
    assert (Hp : port_after (TWSPI_PORT s)
                   (send_bit_events (Z.testbit c 7) (TWSPI_PORT s))
                 = TWSPI_PORT (send_bit_state (Z.testbit c 7) s))
      by reflexivity.
    split; [|split].
    + rewrite Hlog. cbn [send_bit_state log]. now rewrite app_assoc.
    + now rewrite port_after_app, Hp.
    + rewrite port_steps_app, Hp. apply Forall_app. split; [|assumption].
      cbn [send_bit_events port_steps].
      apply Forall_cons; [|apply Forall_cons; [|apply Forall_cons;
                                                  [|apply Forall_nil]]];
        cbn [fst snd]; intros Hchg.
      * exfalso. apply Hchg. symmetry. unfold clk_low.
        apply testbit_clear_other; lia.
      * split; [apply testbit_clear_same|].
        unfold data_put, clk_low.
        destruct (Z.testbit c 7);
          [rewrite testbit_set_other by lia | rewrite testbit_clear_other by lia];
          apply testbit_clear_same.
      * exfalso. apply Hchg. symmetry. unfold clk_high.
        apply testbit_set_other; lia.
Qed.

(** X18.  [twspi_send] changes the Data level only while Clock is low: no
    store to the port that changes Data finds Clock high or moves Clock. *)
Theorem twspi_send_data_stable (c : Z) (s : state) :
  0 <= TWSPI_CLK < 8 -> 0 <= TWSPI_DATA < 8 -> TWSPI_CLK <> TWSPI_DATA ->
  Forall (fun st : Z * Z =>
            Z.testbit (fst st) TWSPI_DATA <> Z.testbit (snd st) TWSPI_DATA ->
            Z.testbit (fst st) TWSPI_CLK = false /\
            Z.testbit (snd st) TWSPI_CLK = false)
         (port_steps (TWSPI_PORT s) (since s (exec (twspi_send c) s))).
Proof.
  intros Hclk Hdata Hne.
  destruct (twspi_send_loop_steps 8 c s Hclk Hdata Hne) as (tr & Hlog & _ & Hall).
  unfold twspi_send. rewrite (since_app _ _ _ Hlog). exact Hall.
Qed.

End ThreeWire.

(** ** The theorems on the example wiring

    Select on bit 0, the power switch on bit 1, Data on bit 2, Clock on
    bit 3, data-ready on bit 4 and field-detect on bit 5; [PCIE0] is bit 0 of
    [PCICR], [PCINT4] and [PCINT5] are bits 4 and 5 of [PCMSK0]. *)


(** With Data carrying 0x3C then 0xFF, receiving two bytes at address 100
    leaves 0x3C and 0xFF there, in that order. *)
Lemma twspi_get_buf_3C_FF :
  0 <= 3 < 8 /\
  exists s',
    twspi_get_buf 3 2 100 (Z.of_nat (length [0x3C; 0xFF]))
                  (reset_state stream_3C_FF) = Some s' /\
    map (ram s') (addrs 100 (length [0x3C; 0xFF])) = [0x3C; 0xFF].
Proof.
  split; [lia|].
  apply (twspi_get_buf_msb_first 3 2 100 (reset_state stream_3C_FF)).
  - lia.
  - discriminate.
  - cbn. lia.
  - repeat constructor; lia.
  - intros [|[|k]] Hk; [reflexivity | reflexivity | cbn in Hk; lia].
Defined.

(** Sending the two bytes 0xA5, 0x3C stored at address 100. *)
Lemma twspi_send_buf_A5_3C :
  (0 <= 3 < 8 /\ 0 <= 2 < 8 /\ 3 <> 2) /\
  twspi_send_buf 3 2 100 (Z.of_nat (length [0xA5; 0x3C]))
                 (state_with_ram (ram_with 100 [0xA5; 0x3C]))
  = Some (fold_left (send_byte 3 2) [0xA5; 0x3C]
                    (state_with_ram (ram_with 100 [0xA5; 0x3C]))) /\
  map (clk_data 3 2)
      (waveform (TWSPI_PORT (state_with_ram (ram_with 100 [0xA5; 0x3C])))
         (since (state_with_ram (ram_with 100 [0xA5; 0x3C]))
                (fold_left (send_byte 3 2) [0xA5; 0x3C]
                           (state_with_ram (ram_with 100 [0xA5; 0x3C])))))
  = flat_map byte_cycles [0xA5; 0x3C].
Proof.
  split; [lia|].
  apply (twspi_send_buf_in_order 3 2 [0xA5; 0x3C] 100
           (state_with_ram (ram_with 100 [0xA5; 0x3C]))).
  - lia.
  - lia.
  - lia.
  - discriminate.
  - cbn. lia.
  - reflexivity.
Defined.

Lemma twspi_begin_end_send_direction_reset :
  (0 <= 0 < 8 /\ 0 <= 2 < 8) /\
  Z.testbit (TWSPI_DDR (exec (twspi_begin_send 0 2)
                             (reset_state (fun _ => 0)))) 2 = true /\
  Z.testbit (TWSPI_PORT (exec (twspi_end_send 0 2)
                              (reset_state (fun _ => 0)))) 0 = true.
Proof.
  split; [lia|].
  pose proof (twspi_begin_end_send_direction 0 2 (reset_state (fun _ => 0))
                ltac:(lia) ltac:(lia)) as H.
  cbv zeta in H. destruct H as [[Hb _] [_ [He _]]]. split; assumption.
Defined.

Lemma rcs926_wake_up_shared_enable_reset :
  (0 <= 0 < 8 /\ 0 <= 4 < 8 /\ 0 <= 5 < 8 /\ 4 <> 5) /\
  Z.testbit (PCMSK0 (exec (rcs926_wake_up_on_rf 0 5 true ;;
                           rcs926_wake_up_on_irq 0 4 true ;;
                           rcs926_wake_up_on_rf 0 5 false)
                          (reset_state (fun _ => 0)))) 4 = true /\
  Z.testbit (PCICR (exec (rcs926_wake_up_on_rf 0 5 true ;;
                          rcs926_wake_up_on_irq 0 4 true ;;
                          rcs926_wake_up_on_rf 0 5 false)
                         (reset_state (fun _ => 0)))) 0 = true.
Proof.
  split; [lia|].
  pose proof (rcs926_wake_up_shared_enable 0 4 5 (reset_state (fun _ => 0))
                ltac:(lia) ltac:(lia) ltac:(lia) ltac:(lia)) as H.
  cbv zeta in H. destruct H as [[H4 [Hie _]] _]. split; assumption.
Defined.

Lemma rcs926_suspend_resume_power_reset :
  0 <= 1 < 8 /\
  since (reset_state (fun _ => 0))
        (exec (rcs926_resume 1)
              (exec (rcs926_suspend 1) (reset_state (fun _ => 0))))
  = [Write rTWSPI_PORT 0; Write rTWSPI_PORT 2; Delay 50].
Proof.
  split; [lia|].
  pose proof (rcs926_suspend_resume_power 1 (reset_state (fun _ => 0))
                ltac:(lia)) as H.
  cbv zeta in H. destruct H as [_ [_ [H _]]]. exact H.
Defined.

Lemma twspi_send_get_frame_reset :
  (0 <= 3 < 8 /\ 0 <= 2 < 8 /\ 3 <> 2) /\
  Z.testbit (TWSPI_PORT (exec (twspi_send 3 2 0xA5)
                              (reset_state (fun _ => 0)))) 3 = true /\
  Z.testbit (TWSPI_PORT (exec (twspi_get 3 2)
                              (reset_state (fun _ => 0)))) 3 = true.
Proof.
  split; [lia|].
  pose proof (twspi_send_get_frame 3 2 0xA5 (reset_state (fun _ => 0))
                ltac:(lia) ltac:(lia) ltac:(lia)) as H.
  cbv zeta in H. destruct H as [H _]. exact H.
Defined.

(** ** The further properties on the example wiring *)

Lemma twspi_init_directions_reset :
  (0 <= 0 < 8 /\ 0 <= 3 < 8 /\ 0 <= 1 < 8) /\
  Z.testbit (TWSPI_DDR (exec (twspi_init 0 3 1)
                             (reset_state (fun _ => 0)))) 3 = true /\
  TWSPI_PORT (exec (twspi_init 0 3 1) (reset_state (fun _ => 0)))
  = TWSPI_PORT (reset_state (fun _ => 0)).
Proof.
  split; [lia|].
  pose proof (twspi_init_directions 0 3 1 (reset_state (fun _ => 0))
                ltac:(lia) ltac:(lia) ltac:(lia)) as H.
  cbv zeta in H. destruct H as [[_ [Hclk _]] [_ [Hport _]]].
  split; assumption.
Defined.

Lemma twspi_disable_undoes_init_reset :
  (0 <= 0 < 8 /\ 0 <= 3 < 8 /\ 0 <= 1 < 8) /\
  TWSPI_DDR (exec (twspi_disable 0 3 1)
                  (exec (twspi_init 0 3 1) (reset_state (fun _ => 0))))
  = TWSPI_DDR (reset_state (fun _ => 0)).
Proof.
  split; [lia|].
  apply (twspi_disable_undoes_init 0 3 1 (reset_state (fun _ => 0)));
    try reflexivity; cbn; lia.
Defined.

Lemma rcs926_wake_up_enable_reset :
  (0 <= 0 < 8 /\ 0 <= 4 < 8 /\ 0 <= 5 < 8) /\
  Z.testbit (PCICR (exec (rcs926_wake_up_on_rf 0 5 true)
                         (reset_state (fun _ => 0)))) 0 = true /\
  Z.testbit (PCMSK0 (exec (rcs926_wake_up_on_rf 0 5 true)
                          (reset_state (fun _ => 0)))) 5 = true.
Proof.
  split; [lia|].
  pose proof (rcs926_wake_up_enable 0 4 5 (reset_state (fun _ => 0))
                ltac:(lia) ltac:(lia) ltac:(lia)) as H.
  cbv zeta in H. destruct H as [[Hie [Hmask _]] _]. split; assumption.
Defined.

Lemma rcs926_wake_up_enable_disable_reset :
  (0 <= 0 < 8 /\ 0 <= 4 < 8 /\ 0 <= 5 < 8 /\
   0 <= PCMSK0 (reset_state (fun _ => 0)) < 256 /\
   Z.testbit (PCMSK0 (reset_state (fun _ => 0))) 5 = false) /\
  PCMSK0 (exec (rcs926_wake_up_on_rf 0 5 true ;;
                rcs926_wake_up_on_rf 0 5 false) (reset_state (fun _ => 0)))
  = PCMSK0 (reset_state (fun _ => 0)) /\
  PCICR (exec (rcs926_wake_up_on_rf 0 5 true ;;
               rcs926_wake_up_on_rf 0 5 false) (reset_state (fun _ => 0)))
  <> PCICR (reset_state (fun _ => 0)).
Proof.
  split; [cbn; repeat split; lia|].
  pose proof (rcs926_wake_up_enable_disable 0 4 5 (reset_state (fun _ => 0))
                ltac:(lia) ltac:(lia) ltac:(lia) ltac:(cbn; lia)
                ltac:(reflexivity)) as H.
  cbv zeta in H. destruct H as [Hmask [_ [Hcr _]]].
  split; [exact Hmask | apply Hcr; reflexivity].
Defined.

Lemma rcs926_power_frame_idle :
  (0 <= 1 < 8 /\
   0 <= TWSPI_PORT (idle_state (fun _ => 0) (fun _ => 0)) < 256 /\
   Z.testbit (TWSPI_PORT (idle_state (fun _ => 0) (fun _ => 0))) 1 = true) /\
  TWSPI_PORT (exec (rcs926_suspend 1 ;; rcs926_resume 1)
                   (idle_state (fun _ => 0) (fun _ => 0)))
  = TWSPI_PORT (idle_state (fun _ => 0) (fun _ => 0)).
Proof.
  split; [cbn; repeat split; lia|].
  pose proof (rcs926_power_frame 1 (idle_state (fun _ => 0) (fun _ => 0))
                ltac:(lia)) as H.
  cbv zeta in H. destruct H as [_ [_ H]].
  apply H; [cbn; lia | reflexivity].
Defined.

Lemma twspi_begin_end_round_trip_idle :
  (0 <= 0 < 8 /\ 0 <= 2 < 8 /\
   Z.testbit (TWSPI_DDR (idle_state (fun _ => 0) (fun _ => 0))) 2 = false /\
   Z.testbit (TWSPI_PORT (idle_state (fun _ => 0) (fun _ => 0))) 0 = true) /\
  TWSPI_DDR (exec (twspi_begin_send 0 2 ;; twspi_end_send 0 2)
                  (idle_state (fun _ => 0) (fun _ => 0)))
  = TWSPI_DDR (idle_state (fun _ => 0) (fun _ => 0)) /\
  TWSPI_PORT (exec (twspi_begin_send 0 2 ;; twspi_end_send 0 2)
                   (idle_state (fun _ => 0) (fun _ => 0)))
  = TWSPI_PORT (idle_state (fun _ => 0) (fun _ => 0)).
Proof.
  split; [repeat split; lia|].
  pose proof (twspi_begin_end_round_trip 0 2
                (idle_state (fun _ => 0) (fun _ => 0))
                ltac:(lia) ltac:(lia) ltac:(cbn; lia) ltac:(cbn; lia)
                ltac:(reflexivity) ltac:(reflexivity)) as H.
  cbv zeta in H. destruct H as [Hd [Hp _]]. split; assumption.
Defined.

Lemma twspi_byte_stores_frame_A5 :
  (0 <= 3 < 8 /\ 0 <= 2 < 8) /\
  length (port_stores (since (reset_state (fun _ => 0))
                             (exec (twspi_send 3 2 0xA5)
                                   (reset_state (fun _ => 0))))) = 24%nat.
Proof.
  split; [lia|].
  apply (twspi_byte_stores_frame 3 2 0xA5 (reset_state (fun _ => 0))); lia.
Defined.

Lemma twspi_transfer_time_two_bytes :
  0 <= 2 < 256 /\
  exists g, twspi_get_buf 3 2 100 2 (reset_state (fun _ => 0)) = Some g /\
            duration (since (reset_state (fun _ => 0)) g)
            = 16 * Z.of_nat (iterations 2).
Proof.
  split; [lia|].
  apply (twspi_transfer_time 3 2 100 2 0xA5 (reset_state (fun _ => 0))); lia.
Defined.

Lemma twspi_buf_memory_frame_two_bytes :
  0 <= 2 < 256 /\
  exists g, twspi_get_buf 3 2 100 2 (reset_state stream_3C_FF) = Some g /\
    forall a, a < 100 \/ 100 + Z.of_nat (iterations 2) <= a ->
              ram g a = ram (reset_state stream_3C_FF) a.
Proof.
  split; [lia|].
  apply (twspi_buf_memory_frame 3 2 100 2 (reset_state stream_3C_FF)); lia.
Defined.

Lemma twspi_send_buf_p_in_order_A5_3C :
  0 <= 2 < 256 /\
  twspi_send_buf_p 3 2 (ram_with 100 [0xA5; 0x3C]) 100 2
                   (reset_state (fun _ => 0))
  = Some (fold_left (send_byte 3 2)
            (map (ram_with 100 [0xA5; 0x3C]) (addrs 100 (iterations 2)))
            (reset_state (fun _ => 0))).
Proof.
  split; [lia|].
  apply (twspi_send_buf_p_in_order 3 2 (ram_with 100 [0xA5; 0x3C]) 100 2
           (reset_state (fun _ => 0))); lia.
Defined.

Lemma twspi_send_buf_p_agrees_A5_3C :
  (0 <= 2 < 256 /\
   map (ram_with 100 [0xA5; 0x3C]) (addrs 100 (iterations 2))
   = map (ram (state_with_ram (ram_with 200 [0xA5; 0x3C])))
         (addrs 200 (iterations 2))) /\
  twspi_send_buf_p 3 2 (ram_with 100 [0xA5; 0x3C]) 100 2
                   (state_with_ram (ram_with 200 [0xA5; 0x3C]))
  = twspi_send_buf 3 2 200 2 (state_with_ram (ram_with 200 [0xA5; 0x3C])).
Proof.
  split; [split; [lia | reflexivity]|].
  apply (twspi_send_buf_p_agrees 3 2 (ram_with 100 [0xA5; 0x3C]) 100 200 2
           (state_with_ram (ram_with 200 [0xA5; 0x3C]))); [lia | reflexivity].
Defined.

Lemma twspi_buf_split_one_one :
  ((1 <= 1)%nat /\ (1 + 1 <= 255)%nat) /\
  exists s1, twspi_get_buf 3 2 100 (Z.of_nat 1) (reset_state stream_3C_FF)
             = Some s1 /\
    twspi_get_buf 3 2 (100 + Z.of_nat 1) (Z.of_nat 1) s1
    = twspi_get_buf 3 2 100 (Z.of_nat (1 + 1)) (reset_state stream_3C_FF).
Proof.
  split; [lia|].
  apply (twspi_buf_split 3 2 100 1 1 (reset_state stream_3C_FF)); lia.
Defined.

Lemma twspi_send_get_loopback_3C :
  (0 <= 3 < 8 /\ 0 <= 2 < 8 /\ 3 <> 2 /\
   data_levels 2 (reset_state stream_3C_FF) 0 8
   = data_at_clk_high
       (map (clk_data 3 2)
            (waveform (TWSPI_PORT (reset_state (fun _ => 0)))
               (since (reset_state (fun _ => 0))
                      (exec (twspi_send 3 2 0x3C)
                            (reset_state (fun _ => 0))))))) /\
  eval (twspi_get 3 2) (reset_state stream_3C_FF) = u8 0x3C.
Proof.
  split; [repeat split; try lia; vm_compute; reflexivity|].
  apply (twspi_send_get_loopback 3 2 0x3C (reset_state (fun _ => 0))
           (reset_state stream_3C_FF)); try lia.
  vm_compute. reflexivity.
Defined.

Lemma twspi_get_send_echo_3C_FF :
  (0 <= 3 < 8 /\ 0 <= 2 < 8 /\ 3 <> 2 /\ (1 <= 2 <= 255)%nat) /\
  exists g t,
    twspi_get_buf 3 2 100 (Z.of_nat 2) (reset_state stream_3C_FF) = Some g /\
    twspi_send_buf 3 2 100 (Z.of_nat 2) g = Some t /\
    map (clk_data 3 2) (waveform (TWSPI_PORT g) (since g t))
    = flat_map bit_cycle (data_levels 2 (reset_state stream_3C_FF) 0 (8 * 2)).
Proof.
  split; [lia|].
  apply (twspi_get_send_echo 3 2 100 2 (reset_state stream_3C_FF)); lia.
Defined.

Lemma twspi_send_transaction_A5_3C :
  (0 <= 0 < 8 /\ 0 <= 3 < 8 /\ 0 <= 2 < 8 /\ 0 <> 3 /\ 0 <> 2 /\ 3 <> 2 /\
   map (ram (idle_state (fun _ => 0) (ram_with 100 [0xA5; 0x3C])))
       (addrs 100 (length [0xA5; 0x3C])) = [0xA5; 0x3C] /\
   Z.testbit (TWSPI_DDR (idle_state (fun _ => 0)
                                    (ram_with 100 [0xA5; 0x3C]))) 2
   = false) /\
  exists s2,
    twspi_send_buf 3 2 100 (Z.of_nat (length [0xA5; 0x3C]))
      (exec (twspi_begin_send 0 2)
            (idle_state (fun _ => 0) (ram_with 100 [0xA5; 0x3C])))
    = Some s2 /\
    TWSPI_DDR (exec (twspi_end_send 0 2) s2)
    = TWSPI_DDR (idle_state (fun _ => 0) (ram_with 100 [0xA5; 0x3C])) /\
    duration (since (idle_state (fun _ => 0) (ram_with 100 [0xA5; 0x3C]))
                    (exec (twspi_end_send 0 2) s2))
    = 3 + 16 * Z.of_nat (length [0xA5; 0x3C]).
Proof.
  split; [repeat split; lia|].
  destruct (twspi_send_transaction 0 3 2 [0xA5; 0x3C] 100
              (idle_state (fun _ => 0) (ram_with 100 [0xA5; 0x3C]))
              ltac:(lia) ltac:(lia) ltac:(lia) ltac:(lia) ltac:(lia)
              ltac:(lia) ltac:(discriminate) ltac:(cbn; lia)
              ltac:(reflexivity) ltac:(cbn; lia) ltac:(reflexivity))
    as (s2 & Hbuf & _ & _ & Hddr & _ & Hdur).
  exists s2. repeat split; assumption.
Defined.

Lemma twspi_send_data_stable_A5 :
  (0 <= 3 < 8 /\ 0 <= 2 < 8 /\ 3 <> 2) /\
  Forall (fun st : Z * Z =>
            Z.testbit (fst st) 2 <> Z.testbit (snd st) 2 ->
            Z.testbit (fst st) 3 = false /\ Z.testbit (snd st) 3 = false)
         (port_steps (TWSPI_PORT (reset_state (fun _ => 0)))
            (since (reset_state (fun _ => 0))
                   (exec (twspi_send 3 2 0xA5) (reset_state (fun _ => 0))))).
Proof.
  split; [lia|].
  apply (twspi_send_data_stable 3 2 0xA5 (reset_state (fun _ => 0))); lia.
Defined.
